(** * Geocoder adapters: AzureMaps (batch endpoint) and MapTiler (path endpoint)

    A shallow embedding of [geopy/geocoders/azure.py] and
    [geopy/geocoders/maptiler.py], together with the part of the Python
    runtime these two files rely on, and the properties of request
    building and response parsing proved about them.

    Conventions.
    - A Python [str] is represented by its UTF-8 byte sequence, so that
      [s.encode('utf-8')] is the identity and percent-encoding works on
      the bytes of the representation.
    - A Python [dict] is an association list in insertion order; lookup
      returns the first binding of a key.
    - A Python exception is a value of [exn]; a computation that may raise
      lives in [exc].
    - A method that receives [self] is a state-passing function over the
      record of the object's attributes. *)

From Stdlib Require Import String Ascii List ZArith Bool Lia DecimalString.
Import ListNotations.

Set Warnings "-register-all".

Local Open Scope list_scope.
Local Open Scope string_scope.

(* ===================================================================== *)
(** * The Python runtime used by the adapters                            *)
(* ===================================================================== *)

Module Py.

(** Exceptions that the modelled code can raise. *)
Inductive exn : Type :=
| GeocoderServiceError (msg : string)
| KeyError
| IndexError
| TypeError
| ValueError
| AttributeError
| OverflowError.

(** Outcome of an expression: a value, or a raised exception. *)
Inductive exc (A : Type) : Type :=
| Ok (a : A)
| Raise (e : exn).

Arguments Ok {A} a.
Arguments Raise {A} e.

Definition bind {A B : Type} (m : exc A) (k : A -> exc B) : exc B :=
  match m with
  | Ok a => k a
  | Raise e => Raise e
  end.

Definition of_option {A : Type} (e : exn) (o : option A) : exc A :=
  match o with
  | Some a => Ok a
  | None => Raise e
  end.

(** A [for] loop that appends one computed element per iteration and
    stops at the first exception. *)
Fixpoint mapM {A B : Type} (f : A -> exc B) (l : list A) : exc (list B) :=
  match l with
  | [] => Ok []
  | x :: xs =>
      bind (f x) (fun y =>
      bind (mapM f xs) (fun ys =>
      Ok (y :: ys)))
  end.

(** ** Strings *)

(** [sep.join(parts)]. *)
Definition join (sep : string) (parts : list string) : string :=
  String.concat sep parts.

(** [c in s] for a one-character [c]. *)
Fixpoint mem_char (c : ascii) (s : string) : bool :=
  match s with
  | EmptyString => false
  | String a rest => Ascii.eqb a c || mem_char c rest
  end.

(** [p in s] for strings: [p] occurs as a substring of [s]. *)
Fixpoint is_substring (p s : string) : bool :=
  String.prefix p s ||
  match s with
  | EmptyString => false
  | String _ rest => is_substring p rest
  end.

(** [s.split(sep)] for a one-character separator. *)
Fixpoint split (sep : ascii) (s : string) : list string :=
  match s with
  | EmptyString => [EmptyString]
  | String c rest =>
      if Ascii.eqb c sep then EmptyString :: split sep rest
      else match split sep rest with
           | [] => [String c EmptyString]
           | w :: ws => String c w :: ws
           end
  end.

Fixpoint lstrip (c : ascii) (s : string) : string :=
  match s with
  | EmptyString => EmptyString
  | String a rest => if Ascii.eqb a c then lstrip c rest else s
  end.

Fixpoint rstrip (c : ascii) (s : string) : string :=
  match s with
  | EmptyString => EmptyString
  | String a rest =>
      match rstrip c rest with
      | EmptyString => if Ascii.eqb a c then EmptyString else String a EmptyString
      | r => String a r
      end
  end.

(** [s.strip(c)] for a one-character [c]. *)
Definition strip (c : ascii) (s : string) : string :=
  rstrip c (lstrip c s).

(** [s.replace(a, b)] for one-character [a] and [b]. *)
Fixpoint replace_char (a b : ascii) (s : string) : string :=
  match s with
  | EmptyString => EmptyString
  | String c rest =>
      String (if Ascii.eqb c a then b else c) (replace_char a b rest)
  end.

(** The characters of a string, as one-character strings (iteration over
    a [str]; one element per byte of the representation, which is one per
    character for ASCII text). *)
Fixpoint chars (s : string) : list string :=
  match s with
  | EmptyString => []
  | String c rest => String c EmptyString :: chars rest
  end.

(** ** Dictionaries with string keys *)

Section Dict.
Context {V : Type}.

Fixpoint dict_get (k : string) (d : list (string * V)) : option V :=
  match d with
  | [] => None
  | (k', v) :: rest => if String.eqb k' k then Some v else dict_get k rest
  end.

Definition dict_mem (k : string) (d : list (string * V)) : bool :=
  match dict_get k d with
  | Some _ => true
  | None => false
  end.

(** [d[k] = v]: overwrite in place when [k] is bound, append otherwise. *)
Fixpoint dict_set (k : string) (v : V) (d : list (string * V))
  : list (string * V) :=
  match d with
  | [] => [(k, v)]
  | (k', v') :: rest =>
      if String.eqb k' k then (k, v) :: rest
      else (k', v') :: dict_set k v rest
  end.
End Dict.

(** ** [urllib.parse]: [quote], [quote_plus], [urlencode] *)

Definition between (lo hi n : nat) : bool :=
  Nat.leb lo n && Nat.leb n hi.

(** [_ALWAYS_SAFE]: ASCII letters, digits and [_.-~]. *)
Definition always_safe (c : ascii) : bool :=
  let n := nat_of_ascii c in
  between 65 90 n || between 97 122 n || between 48 57 n
  || mem_char c "_.-~".

Definition hex_digit (n : nat) : ascii :=
  if Nat.ltb n 10 then ascii_of_nat (48 + n) else ascii_of_nat (55 + n).

(** ['%{:02X}'.format(byte)]. *)
Definition percent_byte (c : ascii) : string :=
  let n := nat_of_ascii c in
  String "%" (String (hex_digit (n / 16)) (String (hex_digit (n mod 16)) EmptyString)).

(** [quote_from_bytes(bs, safe)]: bytes in [_ALWAYS_SAFE] or in [safe] are
    kept, every other byte becomes [%XX]. *)
Fixpoint quote_from_bytes (safe : string) (bs : string) : string :=
  match bs with
  | EmptyString => EmptyString
  | String c rest =>
      (if always_safe c || mem_char c safe
       then String c EmptyString
       else percent_byte c) ++ quote_from_bytes safe rest
  end.

(** [quote(s)], with the default [safe='/']. *)
Definition quote (s : string) : string :=
  quote_from_bytes "/" s.

(** [quote_plus(s)], with the default [safe='']: when [s] holds a space
    the space is first declared safe and then replaced by [+]. *)
Definition quote_plus (s : string) : string :=
  if mem_char " " s
  then replace_char " " "+" (quote_from_bytes " " s)
  else quote_from_bytes "" s.

(** [urlencode(params)] for a dict of strings: [k=v] pairs, each side
    through [quote_plus], joined with [&]. *)
Definition urlencode (params : list (string * string)) : string :=
  join "&" (map (fun kv => quote_plus (fst kv) ++ "=" ++ quote_plus (snd kv)) params).

(** ** The [%] operator with a mapping argument

    [template % dict(...)] where the values are strings.  The templates of
    this program use the directive [%(name)s] only; [%%] is the escaped
    percent sign.  Any other directive is rejected by the model. *)

Inductive fmt_state : Type :=
| Plain                      (* outside a directive *)
| Percent                    (* just after [%] *)
| InName (rev_name : string) (* inside [%( ... ], name read so far, reversed *)
| Conv (name : string).      (* after [%(name)], expecting the conversion *)

Fixpoint rev_string (acc s : string) : string :=
  match s with
  | EmptyString => acc
  | String c rest => rev_string (String c acc) rest
  end.

Fixpoint format_from (st : fmt_state) (args : list (string * string))
  (template : string) : exc string :=
  match template with
  | EmptyString =>
      match st with
      | Plain => Ok EmptyString
      | _ => Raise ValueError          (* incomplete format *)
      end
  | String c rest =>
      match st with
      | Plain =>
          if Ascii.eqb c "%" then format_from Percent args rest
          else bind (format_from Plain args rest) (fun out => Ok (String c out))
      | Percent =>
          if Ascii.eqb c "%"
          then bind (format_from Plain args rest) (fun out => Ok (String "%" out))
          else if Ascii.eqb c "(" then format_from (InName EmptyString) args rest
          else Raise ValueError
      | InName rn =>
          if Ascii.eqb c ")"
          then format_from (Conv (rev_string EmptyString rn)) args rest
          else format_from (InName (String c rn)) args rest
      | Conv name =>
          if Ascii.eqb c "s"
          then match dict_get name args with
               | Some v => bind (format_from Plain args rest) (fun out => Ok (v ++ out))
               | None => Raise KeyError
               end
          else Raise ValueError
      end
  end.

Definition format (template : string) (args : list (string * string)) : exc string :=
  format_from Plain args template.

End Py.

Import Py.

Declare Scope exc_scope.
Delimit Scope exc_scope with exc.
Notation "x <- m ;; k" := (Py.bind m (fun x => k))
  (at level 61, m at next level, right associativity) : exc_scope.
Notation "' pat <- m ;; k" := (Py.bind m (fun x => match x with pat => k end))
  (at level 61, pat pattern, m at next level, right associativity) : exc_scope.
Local Open Scope exc_scope.


(* ===================================================================== *)
(** * Python values                                                       *)
(* ===================================================================== *)

(** Python's [float] (IEEE binary64) and the conversions the adapters
    apply to it.  The adapters never compute with floats, they only
    convert and pass them on, so the representation is left open. *)
Class PyFloat : Type := {
  float : Type;
  (** [float(n)] for an [int]; [None] stands for [OverflowError]. *)
  float_of_int : Z -> option float;
  (** [float(s)] for a [str]; [None] stands for [ValueError]. *)
  float_of_str : string -> option float;
  (** [bool(x)]: [x != 0.0]. *)
  float_nonzero : float -> bool
}.

Section Values.
Context {F : PyFloat}.

(** The values that flow through the adapters: decoded JSON documents
    ([json.loads] yields exactly these) and the query arguments. *)
Inductive value : Type :=
| PNone
| PBool (b : bool)
| PInt (n : Z)
| PFloat (x : float)
| PStr (s : string)
| PList (items : list value)
| PDict (items : list (string * value)).

(** [isinstance(v, dict)]. *)
Definition is_dict (v : value) : bool :=
  match v with
  | PDict _ => true
  | _ => false
  end.

(** [bool(v)]. *)
Definition truthy (v : value) : bool :=
  match v with
  | PNone => false
  | PBool b => b
  | PInt n => negb (Z.eqb n 0)
  | PFloat x => float_nonzero x
  | PStr s => negb (String.eqb s "")
  | PList items => match items with [] => false | _ => true end
  | PDict items => match items with [] => false | _ => true end
  end.

(** [v[k]] for a string [k]. *)
Definition getitem (v : value) (k : string) : exc value :=
  match v with
  | PDict items => of_option KeyError (dict_get k items)
  | _ => Raise TypeError
  end.

(** [v[i]] for an integer literal [i >= 0]. *)
Definition getindex (v : value) (i : nat) : exc value :=
  match v with
  | PList items => of_option IndexError (nth_error items i)
  | PStr s => of_option IndexError (option_map PStr (nth_error (chars s) i))
  | PDict _ => Raise KeyError   (* an [int] is never a key of decoded JSON *)
  | _ => Raise TypeError
  end.

(** [v.get(k, default)]: only a [dict] has the method. *)
Definition get (v : value) (k : string) (default : value) : exc value :=
  match v with
  | PDict items =>
      Ok (match dict_get k items with Some x => x | None => default end)
  | _ => Raise AttributeError
  end.

(** [k in v] for a string [k]. *)
Definition contains (k : string) (v : value) : exc bool :=
  match v with
  | PDict items => Ok (dict_mem k items)
  | PList items =>
      Ok (existsb (fun x => match x with PStr s => String.eqb s k | _ => false end) items)
  | PStr s => Ok (is_substring k s)
  | _ => Raise TypeError
  end.

(** [iter(v)]: the elements a [for] loop over [v] visits. *)
Definition iter (v : value) : exc (list value) :=
  match v with
  | PList items => Ok items
  | PStr s => Ok (map PStr (chars s))
  | PDict items => Ok (map (fun kv => PStr (fst kv)) items)
  | _ => Raise TypeError
  end.

(** [float(v)]. *)
Definition to_float (v : value) : exc float :=
  match v with
  | PFloat x => Ok x
  | PInt n => of_option OverflowError (float_of_int n)
  | PBool b => of_option OverflowError (float_of_int (if b then 1 else 0)%Z)
  | PStr s => of_option ValueError (float_of_str s)
  | _ => Raise TypeError
  end.

(** [s.split(",")]: only a [str] has the method. *)
Definition split_comma (v : value) : exc (list string) :=
  match v with
  | PStr s => Ok (split "," s)
  | _ => Raise AttributeError
  end.

(** [str(v)], also what an f-string or [%s] inserts for [v]. *)
Class PyStr : Type := {
  py_str : value -> string
}.

End Values.

(* ===================================================================== *)
(** * Objects with attributes: state passing                              *)
(* ===================================================================== *)

(** A method call on an object whose attributes are a record [S]: it
    returns or raises, and leaves the object in a possibly changed
    state. *)
Definition M (S A : Type) : Type := S -> exc A * S.

Definition retM {S A : Type} (a : A) : M S A :=
  fun self => (Ok a, self).

Definition bindM {S A B : Type} (m : M S A) (k : A -> M S B) : M S B :=
  fun self =>
    match m self with
    | (Ok a, self') => k a self'
    | (Raise e, self') => (Raise e, self')
    end.

(** Read an attribute: [self.attr]. *)
Definition attr {S A : Type} (proj : S -> A) : M S A :=
  fun self => (Ok (proj self), self).

(** Evaluate an expression that does not involve [self]. *)
Definition liftM {S A : Type} (e : exc A) : M S A :=
  fun self => (e, self).

Notation "x <~ m ;; k" := (bindM m (fun x => k))
  (at level 61, m at next level, right associativity) : exc_scope.

(** A method that leaves every attribute of [self] as it was. *)
Definition read_only {S A : Type} (m : M S A) : Prop :=
  forall self, snd (m self) = self.

(* ===================================================================== *)
(** * The shared base of the adapters                                     *)
(* ===================================================================== *)

(** A query argument: one item, or a [list] of items (batch mode,
    [isinstance(query, list)]). *)
Inductive query (A B : Type) : Type :=
| Scalar (q : A)
| Listed (qs : list B).

Arguments Scalar {A B} q.
Arguments Listed {A B} qs.

Section Base.
Context {F : PyFloat} {P : PyStr}.

(** Modelled from the spec: [geopy.location.Location] is not among the
    sources.  It is the normalized result: display name (text or absent),
    coordinate pair (latitude, longitude) and the raw payload, stored as
    the constructor receives them. *)
Record Location : Type := mkLocation {
  address : value;
  point : value * value;
  raw : value
}.

(** What a parser returns for one query: [None], a [Location], or a list
    of [Location]s. *)
Inductive geo_result : Type :=
| NoResult
| One (loc : Location)
| Many (locs : list Location).

(** What a call returns: the result of one query, or a list with one
    result per query. *)
Inductive response : Type :=
| Single (r : geo_result)
| Batch (rs : list geo_result).

(** Modelled from the spec: [geopy.point.Point] is not among the sources.
    A structured point holds two floating-point values in degrees. *)
Record Point : Type := mkPoint {
  latitude : float;
  longitude : float
}.

(** A coordinate as a caller may supply it: a structured point, a
    [(lat, lng)] pair, or a formatted string. *)
Inductive point_arg : Type :=
| PointObj (p : Point)
| PointPair (lat lng : value)
| PointStr (s : string).

(** Truth value of a coordinate argument: an object and a pair are true,
    a string is true when it is not empty. *)
Definition point_truthy (p : point_arg) : bool :=
  match p with
  | PointObj _ => true
  | PointPair _ _ => true
  | PointStr s => negb (String.eqb s "")
  end.

Inductive timeout_arg : Type :=
| DEFAULT_SENTINEL
| Seconds (n : Z).

Definition params := list (string * string).

(** The interface of the base class [geopy.geocoders.base.Geocoder] that
    the adapters consume.  Its code is not among the sources; the
    operations are parameters, with the one law the spec gives them: they
    keep no mutable state of the adapter. *)
Class Geocoder : Type := {
  (** timeout, proxies, user agent, TLS context and adapter factory, as
      forwarded to the base initialiser *)
  options : Type;
  (** the attributes [Geocoder.__init__] sets *)
  geocoder : Type;
  Geocoder__init__ : option string -> options -> geocoder;
  scheme : geocoder -> string;
  (** one HTTP round trip and the decoding of the JSON body: url, timeout,
      headers, request body *)
  transport : string -> timeout_arg -> params -> option value -> exc value;
  (** [Point(arg)] *)
  Point_new : point_arg -> exc Point;
  _format_bounding_box : list point_arg -> string -> exc string;
  _coerce_point_to_string : point_arg -> string -> exc string;
  (** the batching helper: input list and the method applied per batch *)
  _apply_batchwise :
    forall (S Q : Type), list Q -> (list Q -> M S response) -> M S response;
  _apply_batchwise_read_only :
    forall (S Q : Type) (query : list Q) (func : list Q -> M S response),
      (forall batch, read_only (func batch)) ->
      read_only (_apply_batchwise S Q query func)
}.

Context {G : Geocoder}.

(** Modelled from the spec: [Geocoder._call_geocoder] is not among the
    sources.  It issues the HTTP request and invokes the supplied
    response-parsing callback on the decoded JSON body; transport errors
    propagate unchanged. *)
Definition _call_geocoder {S A : Type} (url : string) (callback : value -> exc A)
  (timeout : timeout_arg) (headers : params) (data : option value) : M S A :=
  liftM (r_json <- transport url timeout headers data ;; callback r_json).

(** The interface of the sibling adapter [geopy.geocoders.tomtom.TomTom]
    that [AzureMaps] extends.  Its code is not among the sources.  The
    single-query methods reach the overridden parameter builders through
    [self], so they take them as arguments. *)
Class TomTom : Type := {
  (** the attributes [TomTom.__init__] sets *)
  tomtom : Type;
  (** api key, scheme, transport options, domain, and the class attributes
      [geocode_path] and [reverse_path] *)
  TomTom__init__ :
    string -> option string -> options -> string -> string -> string -> tomtom;
  tomtom_base : tomtom -> geocoder;
  api_key : tomtom -> string;
  TomTom_geocode :
    forall (S : Type), (S -> tomtom) -> (string -> M S params) ->
      string -> bool -> timeout_arg -> option Z -> bool -> option string ->
      M S response;
  TomTom_reverse :
    forall (S : Type), (S -> tomtom) -> (string -> M S params) ->
      point_arg -> bool -> timeout_arg -> option string ->
      M S response;
  TomTom_geocode_read_only :
    forall S proj builder query exactly_one timeout limit typeahead language,
      (forall q, read_only (builder q)) ->
      read_only (TomTom_geocode S proj builder query exactly_one timeout
                   limit typeahead language);
  TomTom_reverse_read_only :
    forall S proj builder query exactly_one timeout language,
      (forall q, read_only (builder q)) ->
      read_only (TomTom_reverse S proj builder query exactly_one timeout language)
}.

End Base.

(* ===================================================================== *)
(** * [geopy/geocoders/azure.py]                                          *)
(* ===================================================================== *)

Module AzureMaps.
Section AzureMaps.
Context {F : PyFloat} {P : PyStr} {G : Geocoder} {T : TomTom}.

Definition geocode_path : string := "/search/address/json".
Definition reverse_path : string := "/search/address/reverse/json".
Definition batch_geocode_path : string := "/search/address/batch/sync/json".
Definition batch_reverse_path : string := "/search/address/reverse/batch/sync/json".

(** The attributes of an [AzureMaps] object: those of [TomTom] and the
    three that [__init__] adds. *)
Record self : Type := mkSelf {
  super : tomtom;
  api_batch : string;
  api_reverse_batch : string;
  max_batch_size : Z
}.

Definition __init__ (subscription_key : string) (scheme_arg : option string)
  (opts : options) (domain : string) : self :=
  let base :=
    TomTom__init__ subscription_key scheme_arg opts domain geocode_path reverse_path in
  {| super := base;
     api_batch := scheme (tomtom_base base) ++ "://" ++ domain ++ batch_geocode_path;
     api_reverse_batch := scheme (tomtom_base base) ++ "://" ++ domain ++ batch_reverse_path;
     max_batch_size := 1000 |}.

Definition _batch_geocode_params : M self params :=
  key <~ attr (fun s => api_key (super s)) ;;
  retM [("api-version", "1.0"); ("subscription-key", key)].

(** Truth value of an optional string argument. *)
Definition given (o : option string) : bool :=
  match o with
  | Some s => negb (String.eqb s "")
  | None => false
  end.

(** [if language: params['language'] = language]. *)
Definition with_language (language : option string) (ps : params) : params :=
  match language with
  | Some l => if given language then dict_set "language" l ps else ps
  | None => ps
  end.

(** The body of the loop of [_parse_batch_response] over the results of
    one item: lines 200-216. *)
Definition coordinates (result : value) : exc (float * float) :=
  position <- get result "position" (PDict []) ;;
  if is_dict position then
    lat_v <- get position "lat" PNone ;;
    lat <- to_float lat_v ;;
    lng_v <- get position "lon" PNone ;;
    lng <- to_float lng_v ;;
    Ok (lat, lng)
  else
    parts <- split_comma position ;;
    lat_s <- of_option IndexError (nth_error parts 0) ;;
    lat <- to_float (PStr lat_s) ;;
    parts' <- split_comma position ;;
    lng_s <- of_option IndexError (nth_error parts' 1) ;;
    lng <- to_float (PStr lng_s) ;;
    Ok (lat, lng).

Definition parse_result (result : value) : exc Location :=
  address <- get result "address" (PDict []) ;;
  ' (lat, lng) <- coordinates result ;;
  name <- get address "freeformAddress" PNone ;;
  Ok (mkLocation name (PFloat lat, PFloat lng) result).

(** The body of the loop over [batchItems]: lines 197-223. *)
Definition parse_item (key : string) (exactly_one : bool) (item : value)
  : exc geo_result :=
  resp <- getitem item "response" ;;
  present <- contains key resp ;;
  nonempty <- (if present then (v <- getitem resp key ;; Ok (truthy v)) else Ok false) ;;
  if nonempty then
    found <- getitem resp key ;;
    elems <- iter found ;;
    results <- mapM parse_result elems ;;
    if exactly_one then
      first <- of_option IndexError (nth_error results 0) ;;
      Ok (One first)
    else Ok (Many results)
  else if exactly_one then Ok NoResult
  else Ok (Many []).

Definition _parse_batch_response (r_json : value) (exactly_one is_reverse : bool)
  : exc (list geo_result) :=
  let key := if is_reverse then "addresses" else "results" in
  has_error <- contains "error" r_json ;;
  if has_error then
    err <- getitem r_json "error" ;;
    Raise (GeocoderServiceError (py_str err))
  else
    batch_items <- get r_json "batchItems" (PList []) ;;
    items <- iter batch_items ;;
    mapM (parse_item key exactly_one) items.


Definition batch_headers : params := [("Content-Type", "application/json")].

Definition _batch_geocode (query : list string) (exactly_one : bool)
  (timeout : timeout_arg) (limit : option Z) (typeahead : bool)
  (language : option string) : M self (list geo_result) :=
  params <~ _batch_geocode_params ;;
  let batch_items :=
    map (fun location =>
           let query := if exactly_one then "?limit=1&" else "?" in
           let query := query ++ ("query=" ++ quote_plus location) in
           PDict [("query", PStr query)])
        query in
  let data := PDict [("batchItems", PList batch_items)] in
  let params := with_language language params in
  api <~ attr api_batch ;;
  let url := join "?" [api; urlencode params] in
  let callback := fun r_json => _parse_batch_response r_json exactly_one false in
  _call_geocoder url callback timeout batch_headers (Some data).

(** [for lat, lng in query]: each item unpacks into exactly two values. *)
Definition unpack_pair (item : value) : exc (value * value) :=
  elems <- iter item ;;
  match elems with
  | [lat; lng] => Ok (lat, lng)
  | _ => Raise ValueError
  end.

Definition _batch_reverse (query : list value) (exactly_one : bool)
  (timeout : timeout_arg) (limit : option Z) (typeahead : bool)
  (language : option string) : M self (list geo_result) :=
  params <~ _batch_geocode_params ;;
  batch_items <~ liftM (mapM (fun item =>
           ' (lat, lng) <- unpack_pair item ;;
           let query := if exactly_one then "?limit=1&" else "?" in
           let query := query ++ ("query=" ++ py_str lat ++ "," ++ py_str lng) in
           Ok (PDict [("query", PStr query)]))
        query) ;;
  let data := PDict [("batchItems", PList batch_items)] in
  let params := with_language language params in
  api <~ attr api_reverse_batch ;;
  let url := join "?" [api; urlencode params] in
  let callback := fun r_json => _parse_batch_response r_json exactly_one true in
  _call_geocoder url callback timeout batch_headers (Some data).

Definition _geocode_params (formatted_query : string) : M self params :=
  key <~ attr (fun s => api_key (super s)) ;;
  retM [("api-version", "1.0"); ("subscription-key", key); ("query", formatted_query)].

Definition _reverse_params (position : string) : M self params :=
  key <~ attr (fun s => api_key (super s)) ;;
  retM [("api-version", "1.0"); ("subscription-key", key); ("query", position)].

Definition geocode (query : query string string) (exactly_one : bool)
  (timeout : timeout_arg) (limit : option Z) (typeahead : bool)
  (language : option string) : M self response :=
  match query with
  | Listed qs =>
      _apply_batchwise self string qs
        (fun batch =>
           rs <~ _batch_geocode batch exactly_one timeout (Some 1%Z) false language ;;
           retM (Batch rs))
  | Scalar q =>
      TomTom_geocode self super _geocode_params
        q exactly_one timeout limit typeahead language
  end.

Definition reverse (query : query point_arg value) (exactly_one : bool)
  (timeout : timeout_arg) (language : option string) : M self response :=
  match query with
  | Listed qs =>
      _apply_batchwise self value qs
        (fun batch =>
           rs <~ _batch_reverse batch exactly_one timeout (Some 1%Z) false language ;;
           retM (Batch rs))
  | Scalar q =>
      TomTom_reverse self super _reverse_params
        q exactly_one timeout language
  end.

End AzureMaps.
End AzureMaps.

(* ===================================================================== *)
(** * [geopy/geocoders/maptiler.py]                                       *)
(* ===================================================================== *)

Module MapTiler.
Section MapTiler.
Context {F : PyFloat} {P : PyStr} {G : Geocoder}.

Definition api_path : string := "/geocoding/%(query)s.json".

(** The attributes of a [MapTiler] object: those of the base class and
    the four that [__init__] adds. *)
Record self : Type := mkSelf {
  super : geocoder;
  api_key : string;
  domain : string;
  api : string;
  max_batch_size : Z
}.

Definition __init__ (api_key : string) (scheme_arg : option string)
  (opts : options) (domain : string) : self :=
  let base := Geocoder__init__ scheme_arg opts in
  let domain := strip "/" domain in
  {| super := base;
     api_key := api_key;
     domain := domain;
     api := scheme base ++ "://" ++ domain ++ api_path;
     max_batch_size := 3 |}.

(** The inner function [parse_feature] of [_parse_feature]. *)
Definition parse_feature (feature : value) : exc Location :=
  location <- getitem feature "place_name" ;;
  center <- getitem feature "center" ;;
  longitude <- getindex center 0 ;;
  center' <- getitem feature "center" ;;
  latitude <- getindex center' 1 ;;
  Ok (mkLocation location (latitude, longitude) feature).

Definition _parse_feature (feature : value) (exactly_one : bool) : exc geo_result :=
  features <- getitem feature "features" ;;
  if negb (truthy features) then Ok NoResult
  else if exactly_one then
    first <- getindex features 0 ;;
    loc <- parse_feature first ;;
    Ok (One loc)
  else
    elems <- iter features ;;
    locs <- mapM parse_feature elems ;;
    Ok (Many locs).

Definition _parse_json (json : value) (exactly_one : bool) : exc response :=
  if is_dict json then
    r <- _parse_feature json exactly_one ;;
    Ok (Single r)
  else
    elems <- iter json ;;
    rs <- mapM (fun feature => _parse_feature feature exactly_one) elems ;;
    Ok (Batch rs).

(** The [language] argument: absent, a single string, or a list. *)
Inductive language_arg : Type :=
| LangNone
| LangStr (s : string)
| LangList (l : list string).

(** [if isinstance(language, str): language = [language]]; the result is
    [None] when the argument is absent. *)
Definition language_list (language : language_arg) : option (list string) :=
  match language with
  | LangNone => None
  | LangStr s => Some [s]
  | LangList l => Some l
  end.

(** [if language: params['language'] = ','.join(language)]. *)
Definition with_language (language : option (list string)) (ps : params) : params :=
  match language with
  | Some (x :: xs) => dict_set "language" (join "," (x :: xs)) ps
  | _ => ps
  end.

(** [if bbox: params['bbox'] = self._format_bounding_box(bbox, ...)]. *)
Definition with_bbox (bbox : option (list point_arg)) (ps : params) : exc params :=
  match bbox with
  | Some (b :: bs) =>
      formatted <- _format_bounding_box (b :: bs) "%(lon1)s,%(lat1)s,%(lon2)s,%(lat2)s" ;;
      Ok (dict_set "bbox" formatted ps)
  | _ => Ok ps
  end.

(** [if proximity: p = Point(proximity); params['proximity'] = ...]. *)
Definition with_proximity (proximity : option point_arg) (ps : params) : exc params :=
  match proximity with
  | Some a =>
      if point_truthy a then
        p <- Point_new a ;;
        Ok (dict_set "proximity"
              (py_str (PFloat (longitude p)) ++ "," ++ py_str (PFloat (latitude p))) ps)
      else Ok ps
  | None => Ok ps
  end.

Definition _geocode (query : query string string) (timeout : timeout_arg)
  (proximity : option point_arg) (language : language_arg)
  (bbox : option (list point_arg)) (exactly_one : bool) : M self response :=
  key <~ attr api_key ;;
  let params := [("key", key)] in
  let query :=
    match query with
    | Listed qs => join ";" (map quote qs)
    | Scalar q => quote q
    end in
  params <~ liftM (with_bbox bbox params) ;;
  let language := language_list language in
  let params := with_language language params in
  params <~ liftM (with_proximity proximity params) ;;
  api <~ attr api ;;
  path <~ liftM (format api [("query", query)]) ;;
  let url := join "?" [path; urlencode params] in
  let callback := fun json => _parse_json json exactly_one in
  _call_geocoder url callback timeout [] None.

Definition _reverse (query : query point_arg point_arg) (timeout : timeout_arg)
  (language : language_arg) (exactly_one : bool) : M self response :=
  query <~ liftM
    match query with
    | Listed qs =>
        parts <- mapM (fun q => _coerce_point_to_string q "%(lon)s,%(lat)s") qs ;;
        Ok (join ";" parts)
    | Scalar q =>
        query <- _coerce_point_to_string q "%(lon)s,%(lat)s" ;;
        Ok (quote query)
    end ;;
  key <~ attr api_key ;;
  let params := [("key", key)] in
  let language := language_list language in
  let params := with_language language params in
  api <~ attr api ;;
  path <~ liftM (format api [("query", query)]) ;;
  let url := join "?" [path; urlencode params] in
  let callback := fun json => _parse_json json exactly_one in
  _call_geocoder url callback timeout [] None.

Definition geocode (query : query string string) (exactly_one : bool)
  (timeout : timeout_arg) (proximity : option point_arg)
  (language : language_arg) (bbox : option (list point_arg)) : M self response :=
  match query with
  | Listed qs =>
      _apply_batchwise self string qs
        (fun batch => _geocode (Listed batch) timeout proximity language bbox exactly_one)
  | Scalar q =>
      _geocode (Scalar q) timeout proximity language bbox exactly_one
  end.

Definition reverse (query : query point_arg point_arg) (exactly_one : bool)
  (timeout : timeout_arg) (language : language_arg) : M self response :=
  match query with
  | Listed qs =>
      _apply_batchwise self point_arg qs
        (fun batch => _reverse (Listed batch) timeout language exactly_one)
  | Scalar q =>
      _reverse (Scalar q) timeout language exactly_one
  end.

End MapTiler.
End MapTiler.

(* ===================================================================== *)
(** * Vocabulary of the properties                                        *)
(* ===================================================================== *)

Section Vocabulary.
Context {F : PyFloat} {P : PyStr} {G : Geocoder} {T : TomTom}.

(** The result objects whose coordinates can be read: the "position"
    field is a mapping with number-convertible "lat" and "lon" values, or
    a string whose first two comma-separated fields are
    number-convertible.  [lat] and [lng] are the converted values. *)
Inductive position_convertible (fields : list (string * value)) (lat lng : float)
  : Prop :=
| position_mapping (pos : list (string * value)) (lat_v lng_v : value) :
    dict_get "position" fields = Some (PDict pos) ->
    dict_get "lat" pos = Some lat_v ->
    dict_get "lon" pos = Some lng_v ->
    to_float lat_v = Ok lat ->
    to_float lng_v = Ok lng ->
    position_convertible fields lat lng
| position_string (s lat_s lng_s : string) (more : list string) :
    dict_get "position" fields = Some (PStr s) ->
    split "," s = lat_s :: lng_s :: more ->
    to_float (PStr lat_s) = Ok lat ->
    to_float (PStr lng_s) = Ok lng ->
    position_convertible fields lat lng.

(** The result set of an item under [key]: missing, or empty. *)
Definition result_set_empty (key : string) (resp : list (string * value)) : Prop :=
  match dict_get key resp with
  | None => True
  | Some found => truthy found = false
  end.

(** A feature with a display name and a "center" array that starts with
    longitude and latitude, in this order. *)
Inductive feature_shape (feature name lon lat : value) : Prop :=
| feature_fields (fields : list (string * value)) (more : list value) :
    feature = PDict fields ->
    dict_get "place_name" fields = Some name ->
    dict_get "center" fields = Some (PList (lon :: lat :: more)) ->
    feature_shape feature name lon lat.

(** The [Location] a well-shaped feature stands for. *)
Definition located (feature : value) (loc : Location) : Prop :=
  exists name lon lat,
    feature_shape feature name lon lat /\ loc = mkLocation name (lat, lon) feature.

(** One item of a batch body: the embedded query string, with the
    result-count limiter in single-result mode. *)
Definition batch_query_item (exactly_one : bool) (encoded : string) : value :=
  PDict [("query",
          PStr ((if exactly_one then "?limit=1&query=" else "?query=") ++ encoded))].

(** The query parameters of both batch endpoints. *)
Definition batch_params (self : AzureMaps.self) (language : option string) : params :=
  AzureMaps.with_language language
    [("api-version", "1.0"); ("subscription-key", api_key (AzureMaps.super self))].

(** The request URL: [{scheme}://{domain}/geocoding/{query}.json], a
    question mark, and the encoded query parameters. *)
Definition endpoint (base query : string) (ps : params) : string :=
  (base ++ "/geocoding/" ++ query ++ ".json") ++ "?" ++ urlencode ps.

(** A query parameter that is present only when its value is. *)
Definition optional (name : string) (v : option string) : params :=
  match v with
  | Some s => [(name, s)]
  | None => []
  end.

(** The "language" parameter: the comma-joined list, when a language is
    given. *)
Definition language_value (language : MapTiler.language_arg) : option string :=
  match language with
  | MapTiler.LangNone => None
  | MapTiler.LangStr s => Some s
  | MapTiler.LangList [] => None
  | MapTiler.LangList (x :: xs) => Some (join "," (x :: xs))
  end.

(** The "bbox" parameter: what the base class formats with the template
    [lon1,lat1,lon2,lat2], when a bounding box is given. *)
Inductive bbox_value : option (list point_arg) -> option string -> Prop :=
| bbox_absent : bbox_value None None
| bbox_empty : bbox_value (Some []) None
| bbox_given (b : point_arg) (bs : list point_arg) (s : string) :
    _format_bounding_box (b :: bs) "%(lon1)s,%(lat1)s,%(lon2)s,%(lat2)s" = Ok s ->
    bbox_value (Some (b :: bs)) (Some s).

(** The "proximity" parameter: "lon,lat" of the point, when one is
    given. *)
Inductive proximity_value : option point_arg -> option string -> Prop :=
| proximity_absent : proximity_value None None
| proximity_false (a : point_arg) :
    point_truthy a = false -> proximity_value (Some a) None
| proximity_given (a : point_arg) (p : Point) :
    point_truthy a = true ->
    Point_new a = Ok p ->
    proximity_value (Some a)
      (Some (py_str (PFloat (longitude p)) ++ "," ++ py_str (PFloat (latitude p)))).

(** The method calls an [AzureMaps] object accepts, with their
    arguments. *)
Inductive azure_call : Type :=
| Azure_geocode (query : query string string) (exactly_one : bool)
    (timeout : timeout_arg) (limit : option Z) (typeahead : bool)
    (language : option string)
| Azure_reverse (query : query point_arg value) (exactly_one : bool)
    (timeout : timeout_arg) (language : option string)
| Azure__batch_geocode_params
| Azure__batch_geocode (query : list string) (exactly_one : bool)
    (timeout : timeout_arg) (limit : option Z) (typeahead : bool)
    (language : option string)
| Azure__batch_reverse (query : list value) (exactly_one : bool)
    (timeout : timeout_arg) (limit : option Z) (typeahead : bool)
    (language : option string)
| Azure__parse_batch_response (r_json : value) (exactly_one is_reverse : bool)
| Azure__geocode_params (formatted_query : string)
| Azure__reverse_params (position : string).

(** The object after a call, whether the call returned or raised. *)
Definition azure_after (self : AzureMaps.self) (c : azure_call) : AzureMaps.self :=
  match c with
  | Azure_geocode q e t l ta lang => snd (AzureMaps.geocode q e t l ta lang self)
  | Azure_reverse q e t lang => snd (AzureMaps.reverse q e t lang self)
  | Azure__batch_geocode_params => snd (AzureMaps._batch_geocode_params self)
  | Azure__batch_geocode q e t l ta lang =>
      snd (AzureMaps._batch_geocode q e t l ta lang self)
  | Azure__batch_reverse q e t l ta lang =>
      snd (AzureMaps._batch_reverse q e t l ta lang self)
  | Azure__parse_batch_response r e rev =>
      snd (liftM (AzureMaps._parse_batch_response r e rev) self)
  | Azure__geocode_params q => snd (AzureMaps._geocode_params q self)
  | Azure__reverse_params p => snd (AzureMaps._reverse_params p self)
  end.

(** The method calls a [MapTiler] object accepts, with their arguments. *)
Inductive maptiler_call : Type :=
| MapTiler__parse_json (json : value) (exactly_one : bool)
| MapTiler__parse_feature (feature : value) (exactly_one : bool)
| MapTiler_geocode (query : query string string) (exactly_one : bool)
    (timeout : timeout_arg) (proximity : option point_arg)
    (language : MapTiler.language_arg) (bbox : option (list point_arg))
| MapTiler__geocode (query : query string string) (timeout : timeout_arg)
    (proximity : option point_arg) (language : MapTiler.language_arg)
    (bbox : option (list point_arg)) (exactly_one : bool)
| MapTiler_reverse (query : query point_arg point_arg) (exactly_one : bool)
    (timeout : timeout_arg) (language : MapTiler.language_arg)
| MapTiler__reverse (query : query point_arg point_arg) (timeout : timeout_arg)
    (language : MapTiler.language_arg) (exactly_one : bool).

Definition maptiler_after (self : MapTiler.self) (c : maptiler_call) : MapTiler.self :=
  match c with
  | MapTiler__parse_json j e => snd (liftM (MapTiler._parse_json j e) self)
  | MapTiler__parse_feature f e => snd (liftM (MapTiler._parse_feature f e) self)
  | MapTiler_geocode q e t p l b => snd (MapTiler.geocode q e t p l b self)
  | MapTiler__geocode q t p l b e => snd (MapTiler._geocode q t p l b e self)
  | MapTiler_reverse q e t l => snd (MapTiler.reverse q e t l self)
  | MapTiler__reverse q t l e => snd (MapTiler._reverse q t l e self)
  end.

End Vocabulary.

(* ===================================================================== *)
(** * Vocabulary of the further properties                                *)
(* ===================================================================== *)

Section FurtherVocabulary.
Context {F : PyFloat} {P : PyStr} {G : Geocoder} {T : TomTom}.

(** Every character of [s] passes the test [p]. *)
Fixpoint every_char (p : ascii -> bool) (s : string) : bool :=
  match s with
  | EmptyString => true
  | String c rest => p c && every_char p rest
  end.

(** The characters [quote_from_bytes] can emit: the always-safe ones, the
    ones declared safe, and the percent sign of an escape. *)
Definition quoted_char (safe : string) (c : ascii) : bool :=
  always_safe c || mem_char c safe || Ascii.eqb c "%".

(** What single-result mode returns where multi-result mode returns [r]:
    the first [Location], or [None] when there is none. *)
Definition first_of (r : geo_result) : geo_result :=
  match r with
  | NoResult => NoResult
  | One loc => One loc
  | Many [] => NoResult
  | Many (loc :: _) => One loc
  end.

(** The results the AzureMaps batch parser can return per item: [None] or
    a [Location] with [exactly_one], a list without it. *)
Definition azure_shape (exactly_one : bool) (r : geo_result) : bool :=
  match r with
  | NoResult => exactly_one
  | One _ => exactly_one
  | Many _ => negb exactly_one
  end.

(** The results the MapTiler parser can return per collection: [None] in
    both modes, a [Location] with [exactly_one], a list that is not empty
    without it. *)
Definition maptiler_shape (exactly_one : bool) (r : geo_result) : bool :=
  match r with
  | NoResult => true
  | One _ => exactly_one
  | Many [] => false
  | Many (_ :: _) => negb exactly_one
  end.


(** Features the MapTiler parser cannot turn into a [Location], with the
    exception the attempt ends in. *)
Inductive feature_defect (fields : list (string * value)) : exn -> Prop :=
| feature_without_name :
    dict_get "place_name" fields = None ->
    feature_defect fields KeyError
| feature_without_center (name : value) :
    dict_get "place_name" fields = Some name ->
    dict_get "center" fields = None ->
    feature_defect fields KeyError
| feature_short_center (name : value) (coords : list value) :
    dict_get "place_name" fields = Some name ->
    dict_get "center" fields = Some (PList coords) ->
    length coords < 2 ->
    feature_defect fields IndexError.

End FurtherVocabulary.

(* ===================================================================== *)
(** * A small runtime to run the adapters on concrete inputs              *)
(* ===================================================================== *)

Module Sample.

(** Floats are carried as their decimal text. *)
Definition numeric_char (c : ascii) : bool :=
  mem_char c "0123456789.-+eE".

Fixpoint all_chars (p : ascii -> bool) (s : string) : bool :=
  match s with
  | EmptyString => true
  | String c rest => p c && all_chars p rest
  end.

Definition digits_of_Z (n : Z) : string :=
  NilZero.string_of_int (Z.to_int n).

Definition sample_float : PyFloat := {|
  float := string;
  float_of_int := fun n => Some (digits_of_Z n ++ ".0");
  float_of_str := fun s =>
    if negb (String.eqb s "") && all_chars numeric_char s then Some s else None;
  float_nonzero := fun x => negb (String.eqb x "0.0")
|}.

Definition sample_str : @PyStr sample_float := {|
  py_str := fun v : @value sample_float =>
    match v with
    | PNone => "None"
    | PBool true => "True"
    | PBool false => "False"
    | PInt n => digits_of_Z n
    | PFloat x => x
    | PStr s => s
    | PList _ => "[...]"
    | PDict _ => "{...}"
    end
|}.

Definition sample_point (a : @point_arg sample_float) : exc (@Point sample_float) :=
  match a with
  | PointObj p => Ok p
  | PointPair lat lng =>
      x <- to_float lat ;; y <- to_float lng ;; Ok (mkPoint x y)
  | PointStr s =>
      match split "," s with
      | [a; b] => x <- to_float (PStr a) ;; y <- to_float (PStr b) ;; Ok (mkPoint x y)
      | _ => Raise ValueError
      end
  end.

Definition sample_bounding_box (bbox : list (@point_arg sample_float)) (fmt : string)
  : exc string :=
  match bbox with
  | [a; b] =>
      p1 <- sample_point a ;;
      p2 <- sample_point b ;;
      format fmt [("lat1", latitude p1); ("lon1", longitude p1);
                  ("lat2", latitude p2); ("lon2", longitude p2)]
  | _ => Raise ValueError
  end.

Definition sample_coerce (a : @point_arg sample_float) (fmt : string) : exc string :=
  p <- sample_point a ;;
  format fmt [("lat", latitude p); ("lon", longitude p)].

(** The transport answers every request with one empty feature
    collection. *)
Definition sample_transport (url : string) (timeout : timeout_arg) (headers : params)
  (data : option (@value sample_float)) : exc (@value sample_float) :=
  Ok (PDict [("features", PList [])]).

Definition sample_geocoder : @Geocoder sample_float := {|
  options := unit;
  geocoder := string;
  Geocoder__init__ := fun scheme_arg _ =>
    match scheme_arg with Some s => s | None => "https" end;
  scheme := fun g => g;
  transport := sample_transport;
  Point_new := sample_point;
  _format_bounding_box := sample_bounding_box;
  _coerce_point_to_string := sample_coerce;
  _apply_batchwise := fun S Q query func => func query;
  _apply_batchwise_read_only := fun S Q query func H => H query
|}.


(** The sibling adapter keeps the key and the base attributes, and answers
    every single query with no result. *)
Definition sample_tomtom : @TomTom sample_float sample_geocoder := {|
  tomtom := string * string;
  TomTom__init__ := fun key scheme_arg opts domain gpath rpath =>
    (key, @Geocoder__init__ _ sample_geocoder scheme_arg opts);
  tomtom_base := fun t => snd t;
  api_key := fun t => fst t;
  TomTom_geocode := fun S proj builder q exactly_one timeout limit typeahead language =>
    liftM (Ok (Single NoResult));
  TomTom_reverse := fun S proj builder q exactly_one timeout language =>
    liftM (Ok (Single NoResult));
  TomTom_geocode_read_only :=
    fun S proj builder q exactly_one timeout limit typeahead language H self => eq_refl;
  TomTom_reverse_read_only :=
    fun S proj builder q exactly_one timeout language H self => eq_refl
|}.


(** ** Sample inputs *)

#[local] Existing Instance sample_float.
#[local] Existing Instance sample_geocoder.

(** A batch response that carries a top-level error next to an item. *)
Definition error_response : list (string * @value sample_float) :=
  [("batchItems",
    PList [PDict [("response", PDict [("results", PList [])])]]);
   ("error", PDict [("code", PStr "400 BadRequest")])].

Definition redmond : list (string * @value sample_float) :=
  [("address", PDict [("freeformAddress", PStr "1 Microsoft Way, Redmond")]);
   ("position", PDict [("lat", PFloat "47.64"); ("lon", PFloat "-122.13")])].

Definition by_string : list (string * @value sample_float) :=
  [("position", PStr "47.64,-122.13")].

Definition found_item : list (string * @value sample_float) :=
  [("statusCode", PInt 200);
   ("response", PDict [("results", PList [PDict redmond; PDict by_string])])].

Definition empty_item : list (string * @value sample_float) :=
  [("statusCode", PInt 200);
   ("response", PDict [("results", PList [])])].

Definition empty_response : list (string * @value sample_float) :=
  [("results", PList [])].

Definition batch_response : list (string * @value sample_float) :=
  [("summary", PDict [("successfulRequests", PInt 2)]);
   ("batchItems", PList [PDict found_item; PDict empty_item])].

Definition new_york : @value sample_float :=
  PDict [("place_name", PStr "New York, NY");
         ("center", PList [PFloat "-74.0060"; PFloat "40.7128"])].

Definition albany : @value sample_float :=
  PDict [("place_name", PStr "Albany, NY");
         ("center", PList [PFloat "-73.7562"; PFloat "42.6526"])].

Definition collection : list (string * @value sample_float) :=
  [("type", PStr "FeatureCollection"); ("features", PList [new_york; albany])].

Definition empty_collection : list (string * @value sample_float) :=
  [("type", PStr "FeatureCollection"); ("features", PList [])].

Definition bare_collection : list (string * @value sample_float) :=
  [("type", PStr "FeatureCollection")].

Definition maptiler : @MapTiler.self sample_float sample_geocoder :=
  @MapTiler.__init__ sample_float sample_geocoder "KEY" None tt "/api.maptiler.com/".

End Sample.

(* ===================================================================== *)
(** * More sample inputs, and a transport that reports an error           *)
(* ===================================================================== *)

Module MoreSamples.
Import Sample.

#[local] Existing Instance sample_float.

(** The transport answers every request with the error body. *)
Definition error_transport (url : string) (timeout : timeout_arg) (headers : params)
  (data : option (@value sample_float)) : exc (@value sample_float) :=
  Ok (PDict error_response).

Definition error_geocoder : @Geocoder sample_float := {|
  options := unit;
  geocoder := string;
  Geocoder__init__ := fun scheme_arg _ =>
    match scheme_arg with Some s => s | None => "https" end;
  scheme := fun g => g;
  transport := error_transport;
  Point_new := sample_point;
  _format_bounding_box := sample_bounding_box;
  _coerce_point_to_string := sample_coerce;
  _apply_batchwise := fun S Q query func => func query;
  _apply_batchwise_read_only := fun S Q query func H => H query
|}.

Definition error_tomtom : @TomTom sample_float error_geocoder := {|
  tomtom := string * string;
  TomTom__init__ := fun key scheme_arg opts domain gpath rpath =>
    (key, @Geocoder__init__ _ error_geocoder scheme_arg opts);
  tomtom_base := fun t => snd t;
  api_key := fun t => fst t;
  TomTom_geocode := fun S proj builder q exactly_one timeout limit typeahead language =>
    liftM (Ok (Single NoResult));
  TomTom_reverse := fun S proj builder q exactly_one timeout language =>
    liftM (Ok (Single NoResult));
  TomTom_geocode_read_only :=
    fun S proj builder q exactly_one timeout limit typeahead language H self => eq_refl;
  TomTom_reverse_read_only :=
    fun S proj builder q exactly_one timeout language H self => eq_refl
|}.

Definition azure : @AzureMaps.self sample_float sample_geocoder sample_tomtom :=
  @AzureMaps.__init__ sample_float sample_geocoder sample_tomtom
    "KEY" None tt "atlas.microsoft.com".

Definition azure_behind_error : @AzureMaps.self sample_float error_geocoder error_tomtom :=
  @AzureMaps.__init__ sample_float error_geocoder error_tomtom
    "KEY" None tt "atlas.microsoft.com".

(** A response without "batchItems". *)
Definition summary_only : list (string * @value sample_float) :=
  [("summary", PDict [("totalRequests", PInt 0)])].

(** An item that carries a status and no "response". *)
Definition failed_item : list (string * @value sample_float) :=
  [("statusCode", PInt 400)].

Definition broken_response : list (string * @value sample_float) :=
  [("batchItems", PList [PDict found_item; PDict failed_item; PDict empty_item])].


(** A feature whose "center" holds the longitude only. *)
Definition half_centered : list (string * @value sample_float) :=
  [("place_name", PStr "Somewhere"); ("center", PList [PFloat "-74.0060"])].

End MoreSamples.

(* ===================================================================== *)
(** * Facts about the runtime                                             *)
(* ===================================================================== *)

Section RuntimeFacts.

Example quote_plus_ex : quote_plus "1 Microsoft Way, Redmond" = "1+Microsoft+Way%2C+Redmond".
Proof. reflexivity. Qed.
Example quote_ex : quote "a b/c,d~" = "a%20b/c%2Cd~".
Proof. reflexivity. Qed.
Example split_ex : split "," "47.6,-122.1" = ["47.6"; "-122.1"].
Proof. reflexivity. Qed.
Example strip_ex : strip "/" "//api.maptiler.com/" = "api.maptiler.com".
Proof. reflexivity. Qed.
Example format_ex :
  format "https://h/geocoding/%(query)s.json" [("query", "New%20York")]
  = Ok "https://h/geocoding/New%20York.json".
Proof. reflexivity. Qed.
Example urlencode_ex :
  urlencode [("key", "k"); ("bbox", "1,2,3,4")] = "key=k&bbox=1%2C2%2C3%2C4".
Proof. reflexivity. Qed.

Lemma bind_Ok_inv {A B : Type} (m : exc A) (k : A -> exc B) (b : B) :
  Py.bind m k = Ok b -> exists a, m = Ok a /\ k a = Ok b.
Proof.
  destruct m as [a | e]; simpl; intros H.
  - exists a. split; [reflexivity | exact H].
  - discriminate H.
Qed.

(** A loop that collects one element per iteration returns exactly when
    every iteration does, and then the outputs line up with the inputs. *)
Lemma mapM_Ok_iff {A B : Type} (f : A -> exc B) (l : list A) (out : list B) :
  mapM f l = Ok out <-> Forall2 (fun x y => f x = Ok y) l out.
Proof.
  revert out. induction l as [| x xs IH]; intros out; simpl.
  - split; intros H.
    + injection H as <-. constructor.
    + inversion H. reflexivity.
  - split; intros H.
    + apply bind_Ok_inv in H. destruct H as [y [Hy H]].
      apply bind_Ok_inv in H. destruct H as [ys [Hys H]].
      injection H as <-. constructor; [exact Hy | apply IH; exact Hys].
    + inversion H as [| x' y xs' ys Hy Hys]; subst.
      rewrite Hy. simpl. apply IH in Hys. rewrite Hys. reflexivity.
Qed.

Lemma mapM_length {A B : Type} (f : A -> exc B) (l : list A) (out : list B) :
  mapM f l = Ok out -> length out = length l.
Proof.
  intros H. apply mapM_Ok_iff in H. symmetry. eapply Forall2_length. exact H.
Qed.

Lemma Forall2_nth_error_l {A B : Type} (R : A -> B -> Prop) (l : list A) (k : list B) :
  Forall2 R l k ->
  forall i x, nth_error l i = Some x -> exists y, nth_error k i = Some y /\ R x y.
Proof.
  induction 1 as [| a b l' k' Hab _ IH]; intros i x Hi.
  - destruct i; discriminate Hi.
  - destruct i as [| i]; simpl in *.
    + injection Hi as <-. exists b. split; [reflexivity | exact Hab].
    + apply IH. exact Hi.
Qed.

Lemma dict_mem_get {V : Type} (k : string) (d : list (string * V)) :
  dict_mem k d = true <-> exists v, dict_get k d = Some v.
Proof.
  unfold dict_mem. destruct (dict_get k d) as [v |]; split; intros H.
  - exists v. reflexivity.
  - reflexivity.
  - discriminate H.
  - destruct H as [v H]. discriminate H.
Qed.

End RuntimeFacts.

(* ===================================================================== *)
(** * Properties of the AzureMaps response parser                         *)
(* ===================================================================== *)

Section AzureMapsParser.
Context {F : PyFloat} {P : PyStr}.

(** The first thing the parser does with a mapping is to look for the
    key "error". *)
Lemma parse_batch_response_error
  (top : list (string * value)) (err : value) (exactly_one is_reverse : bool) :
  dict_get "error" top = Some err ->
  AzureMaps._parse_batch_response (PDict top) exactly_one is_reverse
  = Raise (GeocoderServiceError (py_str err)).
Proof.
  intros Herr. unfold AzureMaps._parse_batch_response. simpl.
  unfold dict_mem. rewrite Herr. reflexivity.
Qed.

(** C1.  When the top-level mapping of a decoded batch response has the
    key "error", [_parse_batch_response] raises [GeocoderServiceError]
    (with the text of the error payload), whatever the other entries of
    the response are, for forward and reverse parsing and for both values
    of [exactly_one]. *)
Theorem parse_batch_response_error_key_raises :
  forall (top : list (string * value)) (exactly_one is_reverse : bool),
    dict_mem "error" top = true ->
    exists err,
      dict_get "error" top = Some err /\
      AzureMaps._parse_batch_response (PDict top) exactly_one is_reverse
      = Raise (GeocoderServiceError (py_str err)).
Proof.
  intros top exactly_one is_reverse Hmem.
  destruct (proj1 (dict_mem_get "error" top) Hmem) as [err Herr].
  exists err. split.
  - exact Herr.
  - apply parse_batch_response_error. exact Herr.
Qed.

Lemma coordinates_convertible (fields : list (string * value)) (lat lng : float) :
  position_convertible fields lat lng ->
  AzureMaps.coordinates (PDict fields) = Ok (lat, lng).
Proof.
  intros [pos lat_v lng_v Hpos Hlat Hlng Hflat Hflng
         | s lat_s lng_s more Hpos Hsplit Hflat Hflng];
    unfold AzureMaps.coordinates; simpl; rewrite Hpos; simpl.
  - rewrite Hlat, Hflat. simpl. rewrite Hlng, Hflng. reflexivity.
  - rewrite Hsplit. simpl in *. rewrite Hflat. simpl. rewrite Hflng. reflexivity.
Qed.

(** C9.  When the "position" field of a result object is a mapping with
    number-convertible "lat" and "lon", or a string with at least two
    comma-separated number-convertible fields, the coordinate extraction
    of [_parse_batch_response] returns (it does not raise), every
    [Location] built from the result carries (float of the lat part,
    float of the lon part) in that order, and a [Location] is built
    whenever the "address" field is absent or a mapping. *)
Theorem coordinates_total :
  forall (fields : list (string * value)) (lat lng : float),
    position_convertible fields lat lng ->
    AzureMaps.coordinates (PDict fields) = Ok (lat, lng) /\
    (forall loc,
        AzureMaps.parse_result (PDict fields) = Ok loc ->
        point loc = (PFloat lat, PFloat lng)) /\
    (forall addr,
        dict_get "address" fields = None /\ addr = [] \/
        dict_get "address" fields = Some (PDict addr) ->
        AzureMaps.parse_result (PDict fields)
        = Ok (mkLocation
                (match dict_get "freeformAddress" addr with
                 | Some name => name
                 | None => PNone
                 end)
                (PFloat lat, PFloat lng) (PDict fields))).
Proof.
  intros fields lat lng Hpos.
  pose proof (coordinates_convertible fields lat lng Hpos) as Hc.
  split; [exact Hc |]. split.
  - intros loc. unfold AzureMaps.parse_result. rewrite Hc. simpl.
    destruct (dict_get "address" fields) as [a |]; simpl.
    + destruct a; simpl; try discriminate.
      intros H. injection H as <-. reflexivity.
    + intros H. injection H as <-. reflexivity.
  - intros addr [[Haddr ->] | Haddr];
      unfold AzureMaps.parse_result; rewrite Hc; simpl; rewrite Haddr; reflexivity.
Qed.

(** Without a top-level "error" key and with a list under "batchItems",
    the parser is the loop over the items. *)
Lemma parse_batch_response_items
  (top : list (string * value)) (items : list value) (exactly_one is_reverse : bool) :
  dict_mem "error" top = false ->
  dict_get "batchItems" top = Some (PList items) ->
  AzureMaps._parse_batch_response (PDict top) exactly_one is_reverse
  = mapM (AzureMaps.parse_item (if is_reverse then "addresses" else "results")
            exactly_one) items.
Proof.
  intros Herr Hitems. unfold AzureMaps._parse_batch_response. simpl.
  rewrite Herr. simpl. rewrite Hitems. reflexivity.
Qed.

Lemma parse_item_empty (key : string) (exactly_one : bool)
  (item resp : list (string * value)) :
  dict_get "response" item = Some (PDict resp) ->
  result_set_empty key resp ->
  AzureMaps.parse_item key exactly_one (PDict item)
  = Ok (if exactly_one then NoResult else Many []).
Proof.
  intros Hresp Hempty. unfold AzureMaps.parse_item. simpl. rewrite Hresp. simpl.
  unfold result_set_empty in Hempty. unfold dict_mem.
  destruct (dict_get key resp) as [found |]; simpl.
  - rewrite Hempty. destruct exactly_one; reflexivity.
  - destruct exactly_one; reflexivity.
Qed.

End AzureMapsParser.

(* ===================================================================== *)
(** * Properties of the MapTiler response parser                          *)
(* ===================================================================== *)

Section MapTilerParser.
Context {F : PyFloat}.

Lemma parse_feature_shape (feature name lon lat : value) :
  feature_shape feature name lon lat ->
  MapTiler.parse_feature feature = Ok (mkLocation name (lat, lon) feature).
Proof.
  intros [fields more -> Hname Hcenter].
  unfold MapTiler.parse_feature. simpl.
  rewrite Hname. simpl. rewrite Hcenter. reflexivity.
Qed.

Lemma parse_feature_each (features : list value) (locs : list Location) :
  Forall2 located features locs ->
  mapM MapTiler.parse_feature features = Ok locs.
Proof.
  intros H. apply mapM_Ok_iff.
  induction H as [| f loc fs ls Hf _ IH]; constructor; [| exact IH].
  destruct Hf as [name [lon [lat [Hshape ->]]]].
  apply parse_feature_shape. exact Hshape.
Qed.

(** C2.  A feature whose "center" array is [lon, lat] becomes a
    [Location] with latitude [center[1]], longitude [center[0]] and the
    feature's "place_name" as display name.  With [exactly_one] only the
    first feature of the collection is parsed and returned, whatever the
    other features are; without it every feature is mapped this way. *)
Theorem parse_feature_axis_order :
  forall (feature name lon lat : value),
    feature_shape feature name lon lat ->
    MapTiler.parse_feature feature = Ok (mkLocation name (lat, lon) feature) /\
    (forall coll others,
        dict_get "features" coll = Some (PList (feature :: others)) ->
        MapTiler._parse_feature (PDict coll) true
        = Ok (One (mkLocation name (lat, lon) feature))) /\
    (forall coll others locs,
        dict_get "features" coll = Some (PList (feature :: others)) ->
        Forall2 located others locs ->
        MapTiler._parse_feature (PDict coll) false
        = Ok (Many (mkLocation name (lat, lon) feature :: locs))).
Proof.
  intros feature name lon lat Hshape.
  pose proof (parse_feature_shape feature name lon lat Hshape) as Hparse.
  split; [exact Hparse |]. split.
  - intros coll others Hfeatures.
    unfold MapTiler._parse_feature. simpl. rewrite Hfeatures. simpl.
    rewrite Hparse. reflexivity.
  - intros coll others locs Hfeatures Hothers.
    unfold MapTiler._parse_feature. simpl. rewrite Hfeatures. simpl.
    rewrite Hparse. simpl.
    rewrite (parse_feature_each others locs Hothers). reflexivity.
Qed.

(** A collection whose "features" entry is empty gives [None], with and
    without [exactly_one]. *)
Lemma parse_feature_empty (coll : list (string * value)) (features : value)
  (exactly_one : bool) :
  dict_get "features" coll = Some features ->
  truthy features = false ->
  MapTiler._parse_feature (PDict coll) exactly_one = Ok NoResult.
Proof.
  intros Hfeatures Hempty. unfold MapTiler._parse_feature. simpl.
  rewrite Hfeatures. simpl. rewrite Hempty. reflexivity.
Qed.

(** A collection without a "features" entry makes the lookup fail. *)
Lemma parse_feature_missing (coll : list (string * value)) (exactly_one : bool) :
  dict_get "features" coll = None ->
  MapTiler._parse_feature (PDict coll) exactly_one = Raise KeyError.
Proof.
  intros Hfeatures. unfold MapTiler._parse_feature. simpl.
  rewrite Hfeatures. reflexivity.
Qed.

Lemma parse_json_list (colls : list value) (exactly_one : bool) (out : list geo_result) :
  MapTiler._parse_json (PList colls) exactly_one = Ok (Batch out)
  <-> Forall2 (fun coll r => MapTiler._parse_feature coll exactly_one = Ok r) colls out.
Proof.
  unfold MapTiler._parse_json. simpl. rewrite <- mapM_Ok_iff.
  destruct (mapM _ colls) as [rs | e]; simpl; split; intros H.
  - injection H as <-. reflexivity.
  - injection H as <-. reflexivity.
  - discriminate H.
  - discriminate H.
Qed.

Lemma parse_json_list_batch (colls : list value) (exactly_one : bool) (resp : response) :
  MapTiler._parse_json (PList colls) exactly_one = Ok resp ->
  exists out, resp = Batch out /\ length out = length colls.
Proof.
  unfold MapTiler._parse_json. simpl.
  destruct (mapM _ colls) as [rs | e] eqn:Hmap; simpl; intros H.
  - injection H as <-. exists rs. split; [reflexivity |].
    eapply mapM_length. exact Hmap.
  - discriminate H.
Qed.

End MapTilerParser.

(* ===================================================================== *)
(** * Properties shared by the two parsers                                *)
(* ===================================================================== *)

Section Parsers.
Context {F : PyFloat} {P : PyStr}.

(** C5.  For a batch response without a top-level "error" key, the
    sequence [_parse_batch_response] returns has one entry per element of
    "batchItems", in the same order: it returns [out] exactly when [out]
    lists, item by item, what the loop body returns.  Likewise
    [_parse_json] on a list of feature collections returns a list of the
    same length, in the same order. *)
Theorem batch_output_aligned :
  forall (top : list (string * value)) (items colls : list value)
         (exactly_one is_reverse : bool),
    dict_mem "error" top = false ->
    dict_get "batchItems" top = Some (PList items) ->
    (forall out,
        AzureMaps._parse_batch_response (PDict top) exactly_one is_reverse = Ok out
        <-> Forall2 (fun item r =>
                       AzureMaps.parse_item
                         (if is_reverse then "addresses" else "results")
                         exactly_one item = Ok r)
                    items out) /\
    (forall out,
        AzureMaps._parse_batch_response (PDict top) exactly_one is_reverse = Ok out ->
        length out = length items) /\
    (forall out,
        MapTiler._parse_json (PList colls) exactly_one = Ok (Batch out)
        <-> Forall2 (fun coll r => MapTiler._parse_feature coll exactly_one = Ok r)
                    colls out) /\
    (forall resp,
        MapTiler._parse_json (PList colls) exactly_one = Ok resp ->
        exists out, resp = Batch out /\ length out = length colls).
Proof.
  intros top items colls exactly_one is_reverse Herr Hitems.
  rewrite (parse_batch_response_items top items exactly_one is_reverse Herr Hitems).
  split; [| split; [| split]].
  - intros out. apply mapM_Ok_iff.
  - intros out. apply mapM_length.
  - intros out. apply parse_json_list.
  - intros resp. apply parse_json_list_batch.
Qed.

(** C3, as the code has it.  In the AzureMaps batch parser an item whose
    result set is missing or empty yields [None] with [exactly_one] and an
    empty list without it, at the item's position of the output, and the
    item raises nothing.  In the MapTiler parser a collection whose
    "features" entry is present and empty yields [None] in both modes. *)
Theorem empty_result_set_outcome :
  forall (key : string) (exactly_one : bool) (item resp : list (string * value)),
    dict_get "response" item = Some (PDict resp) ->
    result_set_empty key resp ->
    AzureMaps.parse_item key exactly_one (PDict item)
    = Ok (if exactly_one then NoResult else Many []) /\
    (forall (top : list (string * value)) (items : list value) (is_reverse : bool)
            (out : list geo_result) (i : nat),
        key = (if is_reverse then "addresses" else "results") ->
        dict_mem "error" top = false ->
        dict_get "batchItems" top = Some (PList items) ->
        nth_error items i = Some (PDict item) ->
        AzureMaps._parse_batch_response (PDict top) exactly_one is_reverse = Ok out ->
        nth_error out i = Some (if exactly_one then NoResult else Many [])) /\
    (forall (coll : list (string * value)) (features : value) (mode : bool),
        dict_get "features" coll = Some features ->
        truthy features = false ->
        MapTiler._parse_feature (PDict coll) mode = Ok NoResult).
Proof.
  intros key exactly_one item resp Hresp Hempty.
  pose proof (parse_item_empty key exactly_one item resp Hresp Hempty) as Hitem.
  split; [exact Hitem |]. split.
  - intros top items is_reverse out i Hkey Herr Hitems Hi Hout.
    rewrite (parse_batch_response_items top items exactly_one is_reverse Herr Hitems)
      in Hout.
    apply mapM_Ok_iff in Hout.
    destruct (Forall2_nth_error_l _ _ _ Hout i _ Hi) as [r [Hr Hparse]].
    rewrite <- Hkey, Hitem in Hparse. injection Hparse as <-. exact Hr.
  - intros coll features mode. apply parse_feature_empty.
Qed.

End Parsers.

(* ===================================================================== *)
(** * Methods that do not assign attributes                               *)
(* ===================================================================== *)

Section ReadOnly.
Context {S : Type}.

Lemma read_only_retM {A : Type} (a : A) : read_only (@retM S A a).
Proof. intros self. reflexivity. Qed.

Lemma read_only_attr {A : Type} (proj : S -> A) : read_only (attr proj).
Proof. intros self. reflexivity. Qed.

Lemma read_only_liftM {A : Type} (e : exc A) : read_only (@liftM S A e).
Proof. intros self. reflexivity. Qed.

Lemma read_only_bindM {A B : Type} (m : M S A) (k : A -> M S B) :
  read_only m -> (forall a, read_only (k a)) -> read_only (bindM m k).
Proof.
  intros Hm Hk self. unfold bindM.
  specialize (Hm self). destruct (m self) as [[a | e] self']; simpl in *; subst.
  - apply Hk.
  - reflexivity.
Qed.

End ReadOnly.

Ltac read_only_steps :=
  cbv zeta;
  repeat first
    [ apply read_only_retM
    | apply read_only_attr
    | apply read_only_liftM
    | apply read_only_bindM; [| intros ?; cbv beta zeta] ].

(* ===================================================================== *)
(** * Properties of the AzureMaps requests                                *)
(* ===================================================================== *)

Section AzureMapsRequests.
Context {F : PyFloat} {P : PyStr} {G : Geocoder} {T : TomTom}.

Lemma reverse_items (exactly_one : bool) (pairs : list (value * value)) :
  mapM (fun item =>
          ' (lat, lng) <- AzureMaps.unpack_pair item ;;
          Ok (PDict [("query",
                      PStr ((if exactly_one then "?limit=1&" else "?")
                            ++ ("query=" ++ py_str lat ++ "," ++ py_str lng)))]))
       (map (fun p => PList [fst p; snd p]) pairs)
  = Ok (map (fun p => batch_query_item exactly_one
                        (py_str (fst p) ++ "," ++ py_str (snd p))) pairs).
Proof.
  induction pairs as [| [lat lng] rest IH]; cbn [map mapM].
  - reflexivity.
  - rewrite IH. destruct exactly_one; reflexivity.
Qed.

(** C4.  [_batch_geocode] posts the body {"batchItems": [...]} with one
    item per input address, in input order, whose "query" string is
    "?limit=1&query=<percent-encoded address>" with [exactly_one] and
    "?query=<percent-encoded address>" without it.  [_batch_reverse]
    posts the same shape, the coordinates of each input pair written as
    "lat,lng". *)
Theorem batch_request_body_shape :
  forall (self : AzureMaps.self) (addresses : list string)
         (pairs : list (value * value)) (exactly_one : bool)
         (timeout : timeout_arg) (limit : option Z) (typeahead : bool)
         (language : option string),
    AzureMaps._batch_geocode addresses exactly_one timeout limit typeahead language self
    = _call_geocoder
        (AzureMaps.api_batch self ++ "?" ++ urlencode (batch_params self language))
        (fun r_json => AzureMaps._parse_batch_response r_json exactly_one false)
        timeout AzureMaps.batch_headers
        (Some (PDict [("batchItems",
                       PList (map (fun a => batch_query_item exactly_one (quote_plus a))
                                  addresses))]))
        self
    /\
    AzureMaps._batch_reverse (map (fun p => PList [fst p; snd p]) pairs)
      exactly_one timeout limit typeahead language self
    = _call_geocoder
        (AzureMaps.api_reverse_batch self ++ "?" ++ urlencode (batch_params self language))
        (fun r_json => AzureMaps._parse_batch_response r_json exactly_one true)
        timeout AzureMaps.batch_headers
        (Some (PDict [("batchItems",
                       PList (map (fun p => batch_query_item exactly_one
                                              (py_str (fst p) ++ "," ++ py_str (snd p)))
                                  pairs))]))
        self.
Proof.
  intros self addresses pairs exactly_one timeout limit typeahead language. split.
  - unfold AzureMaps._batch_geocode, AzureMaps._batch_geocode_params,
      bindM, attr, retM, batch_params, batch_query_item. simpl.
    destruct exactly_one; reflexivity.
  - unfold AzureMaps._batch_reverse, AzureMaps._batch_geocode_params,
      bindM, attr, retM, liftM, batch_params.
    cbv zeta. rewrite reverse_items. reflexivity.
Qed.

(** An error body makes the batch call itself raise, whatever the
    transport status was. *)
Lemma batch_geocode_service_error
  (self : AzureMaps.self) (addresses : list string) (exactly_one : bool)
  (timeout : timeout_arg) (limit : option Z) (typeahead : bool)
  (language : option string) (top : list (string * value)) (err : value) :
  (forall url headers data, transport url timeout headers data = Ok (PDict top)) ->
  dict_get "error" top = Some err ->
  AzureMaps._batch_geocode addresses exactly_one timeout limit typeahead language self
  = (Raise (GeocoderServiceError (py_str err)), self).
Proof.
  intros Htransport Herr.
  unfold AzureMaps._batch_geocode, AzureMaps._batch_geocode_params,
    _call_geocoder, bindM, attr, retM, liftM. cbv zeta.
  rewrite Htransport. cbn [Py.bind].
  rewrite (parse_batch_response_error top err exactly_one false Herr).
  reflexivity.
Qed.

Lemma batch_geocode_read_only addresses exactly_one timeout limit typeahead language :
  read_only (AzureMaps._batch_geocode addresses exactly_one timeout limit
               typeahead language).
Proof.
  unfold AzureMaps._batch_geocode, AzureMaps._batch_geocode_params, _call_geocoder.
  read_only_steps.
Qed.

Lemma batch_reverse_read_only query exactly_one timeout limit typeahead language :
  read_only (AzureMaps._batch_reverse query exactly_one timeout limit
               typeahead language).
Proof.
  unfold AzureMaps._batch_reverse, AzureMaps._batch_geocode_params, _call_geocoder.
  read_only_steps.
Qed.

Lemma geocode_params_read_only (formatted_query : string) :
  read_only (AzureMaps._geocode_params formatted_query).
Proof. unfold AzureMaps._geocode_params. read_only_steps. Qed.

Lemma reverse_params_read_only (position : string) :
  read_only (AzureMaps._reverse_params position).
Proof. unfold AzureMaps._reverse_params. read_only_steps. Qed.

Lemma azure_geocode_read_only query exactly_one timeout limit typeahead language :
  read_only (AzureMaps.geocode query exactly_one timeout limit typeahead language).
Proof.
  destruct query as [q | qs]; simpl.
  - apply TomTom_geocode_read_only. apply geocode_params_read_only.
  - apply _apply_batchwise_read_only. intros batch.
    apply read_only_bindM; [apply batch_geocode_read_only |].
    intros rs. apply read_only_retM.
Qed.

Lemma azure_reverse_read_only query exactly_one timeout language :
  read_only (AzureMaps.reverse query exactly_one timeout language).
Proof.
  destruct query as [q | qs]; simpl.
  - apply TomTom_reverse_read_only. apply reverse_params_read_only.
  - apply _apply_batchwise_read_only. intros batch.
    apply read_only_bindM; [apply batch_reverse_read_only |].
    intros rs. apply read_only_retM.
Qed.

End AzureMapsRequests.

(* ===================================================================== *)
(** * Properties of the MapTiler requests                                 *)
(* ===================================================================== *)

Section FormatFacts.

Lemma bind_Ok_r {A : Type} (m : exc A) : Py.bind m (fun a => Ok a) = m.
Proof. destruct m; reflexivity. Qed.

Lemma bind_assoc {A B C : Type} (m : exc A) (f : A -> exc B) (g : B -> exc C) :
  Py.bind (Py.bind m f) g = Py.bind m (fun a => Py.bind (f a) g).
Proof. destruct m; reflexivity. Qed.

(** Text without a percent sign is copied by the [%] operator. *)
Lemma format_from_plain_app (args : list (string * string)) (prefix template : string) :
  mem_char "%" prefix = false ->
  format_from Plain args (prefix ++ template)
  = (out <- format_from Plain args template ;; Ok (prefix ++ out)).
Proof.
  induction prefix as [| c rest IH]; simpl; intros Hfree.
  - symmetry. apply bind_Ok_r.
  - apply orb_false_elim in Hfree. destruct Hfree as [Hc Hrest].
    rewrite Hc, (IH Hrest), bind_assoc. reflexivity.
Qed.

(** The path template of MapTiler, filled in. *)
Lemma format_api_path (base query : string) :
  mem_char "%" base = false ->
  format (base ++ MapTiler.api_path) [("query", query)]
  = Ok (base ++ "/geocoding/" ++ query ++ ".json").
Proof.
  intros Hfree. unfold format. rewrite (format_from_plain_app _ _ _ Hfree).
  reflexivity.
Qed.

Lemma string_app_assoc (a b c : string) : (a ++ b) ++ c = a ++ (b ++ c).
Proof.
  induction a as [| x rest IH]; simpl.
  - reflexivity.
  - rewrite IH. reflexivity.
Qed.

Lemma mem_char_app (c : ascii) (a b : string) :
  mem_char c (a ++ b) = mem_char c a || mem_char c b.
Proof.
  induction a as [| x rest IH]; simpl.
  - reflexivity.
  - rewrite IH. apply orb_assoc.
Qed.

End FormatFacts.

Section MapTilerRequests.
Context {F : PyFloat} {P : PyStr} {G : Geocoder}.

(** The URL template of a constructed adapter: scheme, "://", the domain
    without surrounding slashes, and the path template. *)
Lemma maptiler_init_api
  (key : string) (scheme_arg : option string) (opts : options) (domain : string) :
  let base := scheme (Geocoder__init__ scheme_arg opts) ++ "://" ++ strip "/" domain in
  MapTiler.api (MapTiler.__init__ key scheme_arg opts domain)
  = base ++ MapTiler.api_path /\
  (mem_char "%" (scheme (Geocoder__init__ scheme_arg opts)) = false ->
   mem_char "%" (strip "/" domain) = false ->
   mem_char "%" base = false).
Proof.
  intros base. subst base. split.
  - unfold MapTiler.__init__. cbn [MapTiler.api].
    rewrite !string_app_assoc. reflexivity.
  - intros Hscheme Hdomain.
    rewrite !mem_char_app, Hscheme, Hdomain. reflexivity.
Qed.

Lemma with_language_value (language : MapTiler.language_arg) (key : string)
  (bbox_s : option string) :
  MapTiler.with_language (MapTiler.language_list language)
    (("key", key) :: optional "bbox" bbox_s)
  = ((("key", key) :: optional "bbox" bbox_s)
     ++ optional "language" (language_value language))%list.
Proof.
  destruct language as [| s | [| x xs]]; destruct bbox_s; reflexivity.
Qed.

(** C6.  For a scalar address, [_geocode] requests the URL built from the
    path template /geocoding/{query}.json with the percent-encoded
    address; the parameters are "key", always, then "bbox" (formatted
    lon1,lat1,lon2,lat2) only when a bounding box is given, "language"
    (comma-joined) only when a language is given, and "proximity"
    ("lon,lat") only when a proximity point is given. *)
Theorem maptiler_geocode_url :
  forall (self : MapTiler.self) (address : string) (timeout : timeout_arg)
         (proximity : option point_arg) (language : MapTiler.language_arg)
         (bbox : option (list point_arg)) (exactly_one : bool)
         (base : string) (bbox_s proximity_s : option string),
    MapTiler.api self = base ++ MapTiler.api_path ->
    mem_char "%" base = false ->
    bbox_value bbox bbox_s ->
    proximity_value proximity proximity_s ->
    MapTiler._geocode (Scalar address) timeout proximity language bbox exactly_one self
    = _call_geocoder
        (endpoint base (quote address)
           ((("key", MapTiler.api_key self) :: optional "bbox" bbox_s)
            ++ optional "language" (language_value language)
            ++ optional "proximity" proximity_s)%list)
        (fun json => MapTiler._parse_json json exactly_one)
        timeout [] None self.
Proof.
  intros self address timeout proximity language bbox exactly_one base
         bbox_s proximity_s Hapi Hfree Hbbox Hprox.
  unfold MapTiler._geocode, bindM, attr, liftM, endpoint. cbv zeta.
  assert (Hb : MapTiler.with_bbox bbox [("key", MapTiler.api_key self)]
               = Ok (("key", MapTiler.api_key self) :: optional "bbox" bbox_s)).
  { destruct Hbbox as [| | b bs s Hs]; simpl; try reflexivity.
    rewrite Hs. reflexivity. }
  rewrite Hb, with_language_value.
  assert (Hp : MapTiler.with_proximity proximity
                 ((("key", MapTiler.api_key self) :: optional "bbox" bbox_s)
                  ++ optional "language" (language_value language))%list
               = Ok ((("key", MapTiler.api_key self) :: optional "bbox" bbox_s)
                     ++ optional "language" (language_value language)
                     ++ optional "proximity" proximity_s)%list).
  { destruct Hprox as [| a Ha | a p Ha Hnew]; simpl.
    - rewrite app_nil_r. reflexivity.
    - rewrite Ha, app_nil_r. reflexivity.
    - rewrite Ha, Hnew. simpl.
      destruct bbox_s; destruct (language_value language); reflexivity. }
  rewrite Hp, Hapi, (format_api_path base (quote address) Hfree). reflexivity.
Qed.


(** C7.  For a scalar coordinate query, [_reverse] has the base class
    coerce it with the template "lon,lat", percent-encodes the resulting
    string into the URL path, and adds the comma-joined "language"
    parameter when a language is given. *)
Theorem maptiler_reverse_url :
  forall (self : MapTiler.self) (coordinate : point_arg) (timeout : timeout_arg)
         (language : MapTiler.language_arg) (exactly_one : bool)
         (base lon_lat : string),
    MapTiler.api self = base ++ MapTiler.api_path ->
    mem_char "%" base = false ->
    _coerce_point_to_string coordinate "%(lon)s,%(lat)s" = Ok lon_lat ->
    MapTiler._reverse (Scalar coordinate) timeout language exactly_one self
    = _call_geocoder
        (endpoint base (quote lon_lat)
           (("key", MapTiler.api_key self)
            :: optional "language" (language_value language)))
        (fun json => MapTiler._parse_json json exactly_one)
        timeout [] None self.
Proof.
  intros self coordinate timeout language exactly_one base lon_lat
         Hapi Hfree Hcoerce.
  unfold MapTiler._reverse, bindM, attr, liftM, endpoint. cbv zeta.
  rewrite Hcoerce. cbn [Py.bind].
  rewrite Hapi, (format_api_path base (quote lon_lat) Hfree).
  pose proof (with_language_value language (MapTiler.api_key self) None) as Hl.
  simpl in Hl. rewrite Hl. reflexivity.
Qed.

(** C10.  A single language string is treated as the one-element list
    that holds it: [_geocode] and [_reverse] called with [language=s] are
    the calls with [language=[s]], and so request the same URL. *)
Theorem language_str_as_singleton :
  forall (s : string) (self : MapTiler.self) (timeout : timeout_arg)
         (proximity : option point_arg) (bbox : option (list point_arg))
         (exactly_one : bool) (address : query string string)
         (coordinate : query point_arg point_arg),
    MapTiler._geocode address timeout proximity (MapTiler.LangStr s) bbox
      exactly_one self
    = MapTiler._geocode address timeout proximity (MapTiler.LangList [s]) bbox
        exactly_one self
    /\
    MapTiler._reverse coordinate timeout (MapTiler.LangStr s) exactly_one self
    = MapTiler._reverse coordinate timeout (MapTiler.LangList [s]) exactly_one self.
Proof.
  intros s self timeout proximity bbox exactly_one address coordinate.
  split; reflexivity.
Qed.

Lemma maptiler__geocode_read_only query timeout proximity language bbox exactly_one :
  read_only (MapTiler._geocode query timeout proximity language bbox exactly_one).
Proof.
  unfold MapTiler._geocode, _call_geocoder. read_only_steps.
Qed.

Lemma maptiler__reverse_read_only query timeout language exactly_one :
  read_only (MapTiler._reverse query timeout language exactly_one).
Proof.
  unfold MapTiler._reverse, _call_geocoder. read_only_steps.
Qed.

Lemma maptiler_geocode_read_only query exactly_one timeout proximity language bbox :
  read_only (MapTiler.geocode query exactly_one timeout proximity language bbox).
Proof.
  destruct query as [q | qs]; simpl.
  - apply maptiler__geocode_read_only.
  - apply _apply_batchwise_read_only. intros batch.
    apply maptiler__geocode_read_only.
Qed.

Lemma maptiler_reverse_read_only query exactly_one timeout language :
  read_only (MapTiler.reverse query exactly_one timeout language).
Proof.
  destruct query as [q | qs]; simpl.
  - apply maptiler__reverse_read_only.
  - apply _apply_batchwise_read_only. intros batch.
    apply maptiler__reverse_read_only.
Qed.

End MapTilerRequests.

(* ===================================================================== *)
(** * The batch-size attribute                                            *)
(* ===================================================================== *)

Section BatchSize.
Context {F : PyFloat} {P : PyStr} {G : Geocoder} {T : TomTom}.

Lemma azure_after_same (self : AzureMaps.self) (c : azure_call) :
  azure_after self c = self.
Proof.
  destruct c; unfold azure_after.
  - apply azure_geocode_read_only.
  - apply azure_reverse_read_only.
  - reflexivity.
  - apply batch_geocode_read_only.
  - apply batch_reverse_read_only.
  - apply read_only_liftM.
  - apply geocode_params_read_only.
  - apply reverse_params_read_only.
Qed.

Lemma maptiler_after_same (self : MapTiler.self) (c : maptiler_call) :
  maptiler_after self c = self.
Proof.
  destruct c; unfold maptiler_after.
  - apply read_only_liftM.
  - apply read_only_liftM.
  - apply maptiler_geocode_read_only.
  - apply maptiler__geocode_read_only.
  - apply maptiler_reverse_read_only.
  - apply maptiler__reverse_read_only.
Qed.

Lemma fold_left_same {A B : Type} (f : A -> B -> A) (l : list B) (a : A) :
  (forall x b, f x b = x) -> fold_left f l a = a.
Proof.
  intros Hf. induction l as [| b rest IH]; simpl.
  - reflexivity.
  - rewrite Hf. exact IH.
Qed.

(** C8.  A freshly constructed AzureMaps adapter has [max_batch_size]
    1000 and a MapTiler adapter has 3, and the field keeps this value
    through every sequence of method calls on the adapter, whether the
    calls return or raise. *)
Theorem max_batch_size_invariant :
  forall (key : string) (scheme_arg : option string) (opts : options)
         (domain : string) (azure_calls : list azure_call)
         (maptiler_calls : list maptiler_call),
    AzureMaps.max_batch_size (AzureMaps.__init__ key scheme_arg opts domain) = 1000%Z /\
    MapTiler.max_batch_size (MapTiler.__init__ key scheme_arg opts domain) = 3%Z /\
    AzureMaps.max_batch_size
      (fold_left azure_after azure_calls
         (AzureMaps.__init__ key scheme_arg opts domain)) = 1000%Z /\
    MapTiler.max_batch_size
      (fold_left maptiler_after maptiler_calls
         (MapTiler.__init__ key scheme_arg opts domain)) = 3%Z /\
    (forall self c,
        AzureMaps.max_batch_size (azure_after self c) = AzureMaps.max_batch_size self) /\
    (forall self c,
        MapTiler.max_batch_size (maptiler_after self c) = MapTiler.max_batch_size self).
Proof.
  intros key scheme_arg opts domain azure_calls maptiler_calls.
  rewrite (fold_left_same azure_after azure_calls _ azure_after_same).
  rewrite (fold_left_same maptiler_after maptiler_calls _ maptiler_after_same).
  repeat split.
  - intros self c. rewrite azure_after_same. reflexivity.
  - intros self c. rewrite maptiler_after_same. reflexivity.
Qed.

End BatchSize.

(* ===================================================================== *)
(** * The properties at the sample inputs                                 *)
(* ===================================================================== *)

Section Instances.
#[local] Existing Instance Sample.sample_float.
#[local] Existing Instance Sample.sample_str.
#[local] Existing Instance Sample.sample_geocoder.
#[local] Existing Instance Sample.sample_tomtom.

Lemma parse_batch_response_error_key_raises_witness :
  dict_mem "error" Sample.error_response = true /\
  exists err,
    dict_get "error" Sample.error_response = Some err /\
    AzureMaps._parse_batch_response (PDict Sample.error_response) true false
    = Raise (GeocoderServiceError (py_str err)).
Proof.
  split.
  - reflexivity.
  - apply (parse_batch_response_error_key_raises Sample.error_response true false).
    reflexivity.
Defined.

Lemma coordinates_total_witness :
  position_convertible Sample.redmond "47.64" "-122.13" /\
  AzureMaps.parse_result (PDict Sample.redmond)
  = Ok (mkLocation (PStr "1 Microsoft Way, Redmond")
          (PFloat "47.64", PFloat "-122.13") (PDict Sample.redmond)).
Proof.
  assert (H : position_convertible Sample.redmond "47.64" "-122.13").
  { eapply position_mapping; reflexivity. }
  split.
  - exact H.
  - apply (proj2 (proj2 (coordinates_total Sample.redmond "47.64" "-122.13" H))
             [("freeformAddress", PStr "1 Microsoft Way, Redmond")]).
    right. reflexivity.
Defined.

Lemma parse_feature_axis_order_witness :
  feature_shape Sample.new_york (PStr "New York, NY") (PFloat "-74.0060") (PFloat "40.7128") /\
  MapTiler._parse_feature (PDict Sample.collection) true
  = Ok (One (mkLocation (PStr "New York, NY")
               (PFloat "40.7128", PFloat "-74.0060") Sample.new_york)).
Proof.
  assert (H : feature_shape Sample.new_york (PStr "New York, NY")
                (PFloat "-74.0060") (PFloat "40.7128")).
  { eapply feature_fields; reflexivity. }
  split.
  - exact H.
  - apply (proj1 (proj2 (parse_feature_axis_order Sample.new_york _ _ _ H))
             Sample.collection [Sample.albany]).
    reflexivity.
Defined.

Lemma batch_output_aligned_witness :
  dict_mem "error" Sample.batch_response = false /\
  dict_get "batchItems" Sample.batch_response
  = Some (PList [PDict Sample.found_item; PDict Sample.empty_item]) /\
  (forall out,
      AzureMaps._parse_batch_response (PDict Sample.batch_response) true false = Ok out ->
      length out = 2).
Proof.
  split; [reflexivity |]. split; [reflexivity |].
  exact (proj1 (proj2
           (batch_output_aligned Sample.batch_response
              [PDict Sample.found_item; PDict Sample.empty_item] []
              true false eq_refl eq_refl))).
Defined.

Lemma empty_result_set_outcome_witness :
  dict_get "response" Sample.empty_item = Some (PDict Sample.empty_response) /\
  result_set_empty "results" Sample.empty_response /\
  AzureMaps.parse_item "results" false (PDict Sample.empty_item) = Ok (Many []).
Proof.
  split; [reflexivity |]. split; [reflexivity |].
  exact (proj1 (empty_result_set_outcome "results" false Sample.empty_item
                  Sample.empty_response eq_refl eq_refl)).
Defined.

(** C3 fails as stated: in multi-result mode the MapTiler parser answers
    an empty "features" array with [None], not with an empty list, and a
    collection without "features" raises. *)
Lemma maptiler_empty_features_multi_mode :
  MapTiler._parse_feature (PDict Sample.empty_collection) false = Ok NoResult /\
  MapTiler._parse_feature (PDict Sample.empty_collection) false <> Ok (Many []) /\
  MapTiler._parse_feature (PDict Sample.bare_collection) false = Raise KeyError.
Proof.
  split; [reflexivity |]. split; [discriminate | reflexivity].
Qed.


Lemma maptiler_geocode_url_witness :
  MapTiler.api Sample.maptiler = "https://api.maptiler.com" ++ MapTiler.api_path /\
  mem_char "%" "https://api.maptiler.com" = false /\
  bbox_value (Some [PointStr "1,2"; PointStr "3,4"]) (Some "2,1,4,3") /\
  proximity_value (Some (PointStr "40.7128,-74.0060")) (Some "-74.0060,40.7128") /\
  MapTiler._geocode (Scalar "New York, NY") DEFAULT_SENTINEL
    (Some (PointStr "40.7128,-74.0060")) (MapTiler.LangList ["en"; "de"])
    (Some [PointStr "1,2"; PointStr "3,4"]) true Sample.maptiler
  = _call_geocoder
      "https://api.maptiler.com/geocoding/New%20York%2C%20NY.json?key=KEY&bbox=2%2C1%2C4%2C3&language=en%2Cde&proximity=-74.0060%2C40.7128"
      (fun json => MapTiler._parse_json json true)
      DEFAULT_SENTINEL [] None Sample.maptiler.
Proof.
  assert (Hbbox : bbox_value (Some [PointStr "1,2"; PointStr "3,4"]) (Some "2,1,4,3")).
  { apply bbox_given. reflexivity. }
  assert (Hprox : proximity_value (Some (PointStr "40.7128,-74.0060"))
                    (Some "-74.0060,40.7128")).
  { exact (proximity_given (PointStr "40.7128,-74.0060")
             (@mkPoint Sample.sample_float "40.7128" "-74.0060") eq_refl eq_refl). }
  split; [reflexivity |]. split; [reflexivity |].
  split; [exact Hbbox |]. split; [exact Hprox |].
  exact (maptiler_geocode_url Sample.maptiler "New York, NY" DEFAULT_SENTINEL
           (Some (PointStr "40.7128,-74.0060")) (MapTiler.LangList ["en"; "de"])
           (Some [PointStr "1,2"; PointStr "3,4"]) true
           "https://api.maptiler.com" (Some "2,1,4,3") (Some "-74.0060,40.7128")
           eq_refl eq_refl Hbbox Hprox).
Defined.

Lemma maptiler_reverse_url_witness :
  MapTiler.api Sample.maptiler = "https://api.maptiler.com" ++ MapTiler.api_path /\
  mem_char "%" "https://api.maptiler.com" = false /\
  _coerce_point_to_string (PointPair (PFloat "40.7128") (PFloat "-74.0060"))
    "%(lon)s,%(lat)s" = Ok "-74.0060,40.7128" /\
  MapTiler._reverse (Scalar (PointPair (PFloat "40.7128") (PFloat "-74.0060")))
    DEFAULT_SENTINEL (MapTiler.LangStr "en") true Sample.maptiler
  = _call_geocoder
      "https://api.maptiler.com/geocoding/-74.0060%2C40.7128.json?key=KEY&language=en"
      (fun json => MapTiler._parse_json json true)
      DEFAULT_SENTINEL [] None Sample.maptiler.
Proof.
  split; [reflexivity |]. split; [reflexivity |]. split; [reflexivity |].
  exact (maptiler_reverse_url Sample.maptiler
           (PointPair (PFloat "40.7128") (PFloat "-74.0060"))
           DEFAULT_SENTINEL (MapTiler.LangStr "en") true
           "https://api.maptiler.com" "-74.0060,40.7128"
           eq_refl eq_refl eq_refl).
Defined.


(** The parsers and the constructors, run on the sample inputs. *)

Example parse_batch_sample_single :
  AzureMaps._parse_batch_response (PDict Sample.batch_response) true false
  = Ok [One (mkLocation (PStr "1 Microsoft Way, Redmond")
               (PFloat "47.64", PFloat "-122.13") (PDict Sample.redmond));
        NoResult].
Proof. reflexivity. Qed.

Example parse_batch_sample_multi :
  AzureMaps._parse_batch_response (PDict Sample.batch_response) false false
  = Ok [Many [mkLocation (PStr "1 Microsoft Way, Redmond")
                (PFloat "47.64", PFloat "-122.13") (PDict Sample.redmond);
              mkLocation PNone
                (PFloat "47.64", PFloat "-122.13") (PDict Sample.by_string)];
        Many []].
Proof. reflexivity. Qed.

Example parse_batch_sample_reverse :
  AzureMaps._parse_batch_response (PDict Sample.batch_response) true true
  = Ok [NoResult; NoResult].
Proof. reflexivity. Qed.

Example parse_json_sample_list :
  MapTiler._parse_json
    (PList [PDict Sample.collection; PDict Sample.empty_collection]) true
  = Ok (Batch [One (mkLocation (PStr "New York, NY")
                      (PFloat "40.7128", PFloat "-74.0060") Sample.new_york);
               NoResult]).
Proof. reflexivity. Qed.

Example azure_init_sample :
  AzureMaps.api_batch (AzureMaps.__init__ "KEY" None tt "atlas.microsoft.com")
  = "https://atlas.microsoft.com/search/address/batch/sync/json".
Proof. reflexivity. Qed.

Example maptiler_init_sample :
  MapTiler.api Sample.maptiler = "https://api.maptiler.com/geocoding/%(query)s.json".
Proof. reflexivity. Qed.

End Instances.

(* ===================================================================== *)
(** * Further facts about the runtime                                     *)
(* ===================================================================== *)

Section LoopFacts.
Context {A B : Type}.

Lemma mapM_app (f : A -> exc B) (l k : list A) :
  mapM f (l ++ k)
  = (xs <- mapM f l ;; ys <- mapM f k ;; Ok (xs ++ ys)%list).
Proof.
  induction l as [| x rest IH]; simpl.
  - destruct (mapM f k); reflexivity.
  - destruct (f x) as [y | e]; simpl; [| reflexivity].
    rewrite IH. destruct (mapM f rest) as [ys | e]; simpl; [| reflexivity].
    destruct (mapM f k); reflexivity.
Qed.

(** The loop stops at the first element that raises. *)
Lemma mapM_first_error (f : A -> exc B) (before after : list A) (bad : A) (e : exn) :
  Forall (fun x => exists y, f x = Ok y) before ->
  f bad = Raise e ->
  mapM f (before ++ bad :: after) = Raise e.
Proof.
  intros Hbefore Hbad. induction Hbefore as [| x rest [y Hy] _ IH]; simpl.
  - rewrite Hbad. reflexivity.
  - rewrite Hy. simpl. rewrite IH. reflexivity.
Qed.

(** Post-processing every element is post-processing the outcome. *)
Lemma mapM_post {C : Type} (f : A -> exc C) (g : A -> exc B) (h : B -> C) (l : list A) :
  (forall x, f x = (y <- g x ;; Ok (h y))) ->
  mapM f l = (ys <- mapM g l ;; Ok (map h ys)).
Proof.
  intros Hf. induction l as [| x rest IH]; simpl.
  - reflexivity.
  - rewrite Hf, IH. destruct (g x) as [y | e]; simpl; [| reflexivity].
    destruct (mapM g rest); reflexivity.
Qed.

Lemma mapM_Forall (f : A -> exc B) (p : B -> bool) (l : list A) (out : list B) :
  (forall x y, f x = Ok y -> p y = true) ->
  mapM f l = Ok out ->
  forallb p out = true.
Proof.
  intros Hp Hout. apply mapM_Ok_iff in Hout.
  induction Hout as [| x y xs ys Hxy _ IH]; simpl.
  - reflexivity.
  - rewrite (Hp x y Hxy), IH. reflexivity.
Qed.

End LoopFacts.

Section StringFacts.


Lemma every_char_app (p : ascii -> bool) (a b : string) :
  every_char p (a ++ b) = every_char p a && every_char p b.
Proof.
  induction a as [| c rest IH]; simpl.
  - reflexivity.
  - rewrite IH. apply andb_assoc.
Qed.

Lemma every_char_excludes (p : ascii -> bool) (c : ascii) (s : string) :
  every_char p s = true -> p c = false -> mem_char c s = false.
Proof.
  intros Hs Hc. induction s as [| a rest IH]; simpl in *.
  - reflexivity.
  - apply andb_prop in Hs. destruct Hs as [Ha Hrest].
    rewrite (IH Hrest), orb_false_r.
    destruct (Ascii.eqb_spec a c) as [-> | Hne]; [| reflexivity].
    rewrite Ha in Hc. discriminate Hc.
Qed.

End StringFacts.

(* ===================================================================== *)
(** * Further properties of the AzureMaps response parser                 *)
(* ===================================================================== *)

Section AzureMapsParserMore.
Context {F : PyFloat} {P : PyStr}.

(** X1.  A batch response without "error" and without "batchItems", or
    with an empty "batchItems" list, parses to the empty list. *)
Theorem parse_batch_response_no_items :
  forall (top : list (string * value)) (exactly_one is_reverse : bool),
    dict_mem "error" top = false ->
    dict_get "batchItems" top = None \/ dict_get "batchItems" top = Some (PList []) ->
    AzureMaps._parse_batch_response (PDict top) exactly_one is_reverse = Ok [].
Proof.
  intros top exactly_one is_reverse Herr Hitems.
  unfold AzureMaps._parse_batch_response. simpl. rewrite Herr. simpl.
  destruct Hitems as [Hnone | Hempty].
  - rewrite Hnone. reflexivity.
  - rewrite Hempty. reflexivity.
Qed.

(** X2.  The batch parser is all or nothing: when the items before a
    failing item parse, the exception of the first failing item is the
    outcome of the whole response, whatever follows it. *)
Theorem parse_batch_response_first_failure :
  forall (top : list (string * value)) (before after : list value) (bad : value)
         (exactly_one is_reverse : bool) (e : exn),
    dict_mem "error" top = false ->
    dict_get "batchItems" top = Some (PList (before ++ bad :: after)) ->
    Forall (fun item =>
              exists r,
                AzureMaps.parse_item (if is_reverse then "addresses" else "results")
                  exactly_one item = Ok r) before ->
    AzureMaps.parse_item (if is_reverse then "addresses" else "results")
      exactly_one bad = Raise e ->
    AzureMaps._parse_batch_response (PDict top) exactly_one is_reverse = Raise e.
Proof.
  intros top before after bad exactly_one is_reverse e Herr Hitems Hbefore Hbad.
  rewrite (parse_batch_response_items top _ exactly_one is_reverse Herr Hitems).
  apply mapM_first_error; assumption.
Qed.


(** X4.  A batch response whose top level is not a mapping never parses:
    it raises [TypeError] or [AttributeError]. *)
Theorem parse_batch_response_not_a_mapping :
  forall (r_json : value) (exactly_one is_reverse : bool),
    is_dict r_json = false ->
    AzureMaps._parse_batch_response r_json exactly_one is_reverse = Raise TypeError \/
    AzureMaps._parse_batch_response r_json exactly_one is_reverse = Raise AttributeError.
Proof.
  intros r_json exactly_one is_reverse Hdict.
  unfold AzureMaps._parse_batch_response.
  destruct r_json as [| b | n | x | s | items | items]; simpl in *;
    try (left; reflexivity); try discriminate Hdict.
  - destruct (is_substring "error" s); simpl; [left | right]; reflexivity.
  - destruct (existsb _ items); simpl; [left | right]; reflexivity.
Qed.

Lemma truthy_iter_nonempty (v : value) (elems : list value) :
  truthy v = true -> iter v = Ok elems -> elems <> [].
Proof.
  destruct v as [| b | n | x | s | items | items]; simpl; intros Ht Hi;
    try discriminate Hi; injection Hi as <-.
  - destruct s; [discriminate Ht | discriminate].
  - destruct items; [discriminate Ht | discriminate].
  - destruct items; [discriminate Ht | discriminate].
Qed.

Lemma parse_item_single_of_multi (key : string) (item : value) :
  AzureMaps.parse_item key true item
  = (r <- AzureMaps.parse_item key false item ;; Ok (first_of r)).
Proof.
  unfold AzureMaps.parse_item.
  destruct (getitem item "response") as [resp | e]; simpl; [| reflexivity].
  destruct (contains key resp) as [[|] | e]; simpl; try reflexivity.
  destruct (getitem resp key) as [found | e]; simpl; [| reflexivity].
  destruct (truthy found) eqn:Htruthy; simpl; [| reflexivity].
  destruct (iter found) as [elems | e] eqn:Hiter; simpl; [| reflexivity].
  destruct (mapM AzureMaps.parse_result elems) as [results | e] eqn:Hmap; simpl;
    [| reflexivity].
  destruct results as [| first others]; [| reflexivity].
  exfalso. apply (truthy_iter_nonempty found elems Htruthy Hiter).
  apply mapM_length in Hmap. destruct elems; [reflexivity | discriminate Hmap].
Qed.

(** X5.  Single-result mode is multi-result mode followed by taking the
    first result of every item: [exactly_one=True] returns, item by item,
    the first [Location] of what [exactly_one=False] returns ([None] for
    an empty list), and raises exactly when [exactly_one=False] raises,
    with the same exception. *)
Theorem parse_batch_response_single_of_multi :
  forall (r_json : value) (is_reverse : bool),
    AzureMaps._parse_batch_response r_json true is_reverse
    = (outs <- AzureMaps._parse_batch_response r_json false is_reverse ;;
       Ok (map first_of outs)).
Proof.
  intros r_json is_reverse. unfold AzureMaps._parse_batch_response.
  destruct (contains "error" r_json) as [[|] | e]; simpl; try reflexivity.
  - destruct (getitem r_json "error"); reflexivity.
  - destruct (get r_json "batchItems" (PList [])) as [batch_items | e]; simpl;
      [| reflexivity].
    destruct (iter batch_items) as [items | e]; simpl; [| reflexivity].
    apply mapM_post. intros item. apply parse_item_single_of_multi.
Qed.

Lemma parse_item_shape (key : string) (exactly_one : bool) (item : value)
  (r : geo_result) :
  AzureMaps.parse_item key exactly_one item = Ok r -> azure_shape exactly_one r = true.
Proof.
  unfold AzureMaps.parse_item.
  destruct (getitem item "response") as [resp | e]; simpl; [| discriminate].
  destruct (contains key resp) as [present | e]; simpl; [| discriminate].
  destruct (if present then _ else _) as [nonempty | e]; simpl; [| discriminate].
  destruct nonempty.
  - destruct (getitem resp key) as [found | e]; simpl; [| discriminate].
    destruct (iter found) as [elems | e]; simpl; [| discriminate].
    destruct (mapM AzureMaps.parse_result elems) as [results | e]; simpl;
      [| discriminate].
    destruct exactly_one.
    + destruct results; simpl; [discriminate |].
      intros H. injection H as <-. reflexivity.
    + intros H. injection H as <-. reflexivity.
  - destruct exactly_one; intros H; injection H as <-; reflexivity.
Qed.

(** X6.  The mode fixes the kind of every entry the batch parser returns:
    with [exactly_one] each entry is [None] or one [Location], without it
    each entry is a list. *)
Theorem parse_batch_response_shape :
  forall (r_json : value) (exactly_one is_reverse : bool) (out : list geo_result),
    AzureMaps._parse_batch_response r_json exactly_one is_reverse = Ok out ->
    forallb (azure_shape exactly_one) out = true.
Proof.
  intros r_json exactly_one is_reverse out. unfold AzureMaps._parse_batch_response.
  destruct (contains "error" r_json) as [[|] | e]; simpl; try discriminate.
  - destruct (getitem r_json "error"); discriminate.
  - destruct (get r_json "batchItems" (PList [])) as [batch_items | e]; simpl;
      [| discriminate].
    destruct (iter batch_items) as [items | e]; simpl; [| discriminate].
    apply mapM_Forall. intros item r. apply parse_item_shape.
Qed.

End AzureMapsParserMore.

(* ===================================================================== *)
(** * Further properties of the MapTiler response parser                  *)
(* ===================================================================== *)

Section MapTilerParserMore.
Context {F : PyFloat}.

(** X7.  What single-result mode returns is the first result of
    multi-result mode: when [_parse_feature] returns [r] without
    [exactly_one], it returns the first [Location] of [r] with it ([None]
    for [None]). *)
Theorem parse_feature_single_of_multi :
  forall (feature : value) (r : geo_result),
    MapTiler._parse_feature feature false = Ok r ->
    MapTiler._parse_feature feature true = Ok (first_of r).
Proof.
  intros feature r. unfold MapTiler._parse_feature.
  destruct (getitem feature "features") as [features | e]; simpl; [| discriminate].
  destruct (truthy features) eqn:Htruthy; simpl.
  - destruct features as [| b | n | x | s | items | items]; simpl in *;
      try discriminate.
    + destruct s as [| c rest]; simpl; discriminate.
    + destruct items as [| first others]; [discriminate Htruthy |]. simpl.
      destruct (MapTiler.parse_feature first) as [loc | e]; simpl; [| discriminate].
      destruct (mapM MapTiler.parse_feature others) as [locs | e]; simpl;
        [| discriminate].
      intros H. injection H as <-. reflexivity.
    + destruct items as [| [k v] others]; [discriminate Htruthy |]. simpl.
      discriminate.
  - intros H. injection H as <-. reflexivity.
Qed.

Lemma parse_feature_shape_by_mode (feature : value) (exactly_one : bool)
  (r : geo_result) :
  MapTiler._parse_feature feature exactly_one = Ok r ->
  maptiler_shape exactly_one r = true.
Proof.
  unfold MapTiler._parse_feature.
  destruct (getitem feature "features") as [features | e]; simpl; [| discriminate].
  destruct (truthy features) eqn:Htruthy; simpl.
  - destruct exactly_one.
    + destruct (getindex features 0) as [first | e]; simpl; [| discriminate].
      destruct (MapTiler.parse_feature first) as [loc | e]; simpl; [| discriminate].
      intros H. injection H as <-. reflexivity.
    + destruct (iter features) as [elems | e] eqn:Hiter; simpl; [| discriminate].
      destruct (mapM MapTiler.parse_feature elems) as [locs | e] eqn:Hmap; simpl;
        [| discriminate].
      intros H. injection H as <-.
      destruct locs as [| loc others]; [| reflexivity].
      exfalso. apply (truthy_iter_nonempty features elems Htruthy Hiter).
      apply mapM_length in Hmap. destruct elems; [reflexivity | discriminate Hmap].
  - intros H. injection H as <-. reflexivity.
Qed.

(** X8.  The mode fixes the kind of result the feature parser returns:
    with [exactly_one] it is [None] or one [Location]; without it, [None]
    or a list that is never empty.  [_parse_json] returns one such result
    for a mapping and a list of such results otherwise. *)
Theorem parse_json_shape :
  forall (json : value) (exactly_one : bool) (resp : response),
    MapTiler._parse_json json exactly_one = Ok resp ->
    match resp with
    | Single r => is_dict json = true /\ maptiler_shape exactly_one r = true
    | Batch rs => is_dict json = false /\ forallb (maptiler_shape exactly_one) rs = true
    end.
Proof.
  intros json exactly_one resp. unfold MapTiler._parse_json.
  destruct (is_dict json).
  - destruct (MapTiler._parse_feature json exactly_one) as [r | e] eqn:Hr; simpl;
      [| discriminate].
    intros H. injection H as <-. split; [reflexivity |].
    apply (parse_feature_shape_by_mode json exactly_one r Hr).
  - destruct (iter json) as [elems | e]; simpl; [| discriminate].
    destruct (mapM _ elems) as [rs | e] eqn:Hmap; simpl; [| discriminate].
    intros H. injection H as <-. split; [reflexivity |].
    refine (mapM_Forall _ _ elems rs _ Hmap).
    intros coll r. apply parse_feature_shape_by_mode.
Qed.

(** X9.  A feature without "place_name" or without "center" raises
    [KeyError], one whose "center" array has fewer than two elements
    raises [IndexError]; a collection that starts with such a feature
    raises the same exception in both modes. *)
Theorem parse_feature_defect :
  forall (fields : list (string * value)) (e : exn),
    feature_defect fields e ->
    MapTiler.parse_feature (PDict fields) = Raise e /\
    (forall (coll : list (string * value)) (others : list value) (mode : bool),
        dict_get "features" coll = Some (PList (PDict fields :: others)) ->
        MapTiler._parse_feature (PDict coll) mode = Raise e).
Proof.
  intros fields e Hdefect.
  assert (Hp : MapTiler.parse_feature (PDict fields) = Raise e).
  { unfold MapTiler.parse_feature. simpl.
    destruct Hdefect as [Hname | name Hname Hcenter | name coords Hname Hcenter Hlen];
      rewrite Hname; simpl.
    - reflexivity.
    - rewrite Hcenter. reflexivity.
    - rewrite Hcenter. simpl.
      destruct coords as [| lon [| lat more]]; simpl in *; try reflexivity.
      lia. }
  split; [exact Hp |].
  intros coll others mode Hfeatures.
  unfold MapTiler._parse_feature. simpl. rewrite Hfeatures. simpl.
  destruct mode; simpl; rewrite Hp; reflexivity.
Qed.

End MapTilerParserMore.

(* ===================================================================== *)
(** * Further properties of percent-encoding                              *)
(* ===================================================================== *)

Section QuoteFacts.

Lemma hex_digit_safe (n : nat) : n < 16 -> always_safe (hex_digit n) = true.
Proof.
  intros Hn. do 16 (destruct n as [| n]; [reflexivity |]). lia.
Qed.

Lemma percent_byte_quoted (safe : string) (c : ascii) :
  every_char (quoted_char safe) (percent_byte c) = true.
Proof.
  pose proof (nat_ascii_bounded c) as Hc.
  unfold percent_byte, every_char, quoted_char. cbv zeta.
  rewrite (hex_digit_safe (nat_of_ascii c / 16)), (hex_digit_safe (nat_of_ascii c mod 16)).
  - rewrite Ascii.eqb_refl, orb_true_r. reflexivity.
  - apply Nat.mod_upper_bound. discriminate.
  - apply Nat.Div0.div_lt_upper_bound. exact Hc.
Qed.

(** [quote_from_bytes] emits always-safe characters, characters declared
    safe, and percent signs only. *)
Lemma quote_from_bytes_quoted (safe s : string) :
  every_char (quoted_char safe) (quote_from_bytes safe s) = true.
Proof.
  induction s as [| c rest IH]; simpl.
  - reflexivity.
  - rewrite every_char_app, IH, andb_true_r.
    destruct (always_safe c || mem_char c safe) eqn:Hkeep.
    + simpl. unfold quoted_char. rewrite Hkeep. reflexivity.
    + apply percent_byte_quoted.
Qed.

Lemma every_char_weaken (p q : ascii -> bool) (s : string) :
  (forall c, p c = true -> q c = true) ->
  every_char p s = true -> every_char q s = true.
Proof.
  intros Hpq. induction s as [| c rest IH]; simpl; intros H.
  - reflexivity.
  - apply andb_prop in H. destruct H as [Hc Hrest].
    rewrite (Hpq c Hc), (IH Hrest). reflexivity.
Qed.

(** The characters [quote_plus] can emit. *)
Lemma replace_space_quoted (s : string) :
  every_char (quoted_char " ") s = true ->
  every_char (quoted_char "+") (replace_char " " "+" s) = true.
Proof.
  intros H. induction s as [| c rest IH]; simpl in *.
  - reflexivity.
  - apply andb_prop in H. destruct H as [Hc Hrest]. rewrite (IH Hrest), andb_true_r.
    destruct (Ascii.eqb_spec c " ") as [-> | Hne].
    + reflexivity.
    + unfold quoted_char in *. cbn [mem_char] in *.
      destruct (Ascii.eqb_spec " " c) as [Heq | _]; [symmetry in Heq; contradiction |].
      rewrite !orb_false_r in Hc.
      apply orb_prop in Hc. destruct Hc as [Hsafe | Hpercent].
      * rewrite Hsafe. reflexivity.
      * rewrite Hpercent. apply orb_true_r.
Qed.

(** [quote_plus] emits always-safe characters, percent signs and plus
    signs only. *)
Lemma quote_plus_quoted (s : string) :
  every_char (quoted_char "+") (quote_plus s) = true.
Proof.
  unfold quote_plus. destruct (mem_char " " s).
  - apply replace_space_quoted. apply quote_from_bytes_quoted.
  - apply (every_char_weaken (quoted_char "")).
    + intros c Hc. unfold quoted_char in *. cbn [mem_char] in *.
      rewrite !orb_false_r in Hc.
      apply orb_prop in Hc. destruct Hc as [Hsafe | Hpercent].
      * rewrite Hsafe. reflexivity.
      * rewrite Hpercent. apply orb_true_r.
    + apply quote_from_bytes_quoted.
Qed.

End QuoteFacts.

(* ===================================================================== *)
(** * Further properties of the AzureMaps requests                        *)
(* ===================================================================== *)

Section AzureMapsRequestsMore.
Context {F : PyFloat} {P : PyStr} {G : Geocoder} {T : TomTom}.

(** X10.  The encoded address inside a batch item holds no "&", "=", "?",
    "#" or space: an address cannot add parameters to the query string of
    its item, nor end it. *)
Theorem batch_item_address_encoded :
  forall (address : string),
    mem_char "&" (quote_plus address) = false /\
    mem_char "=" (quote_plus address) = false /\
    mem_char "?" (quote_plus address) = false /\
    mem_char "#" (quote_plus address) = false /\
    mem_char " " (quote_plus address) = false.
Proof.
  intros address.
  pose proof (quote_plus_quoted address) as Hq.
  repeat split; apply (every_char_excludes _ _ _ Hq); reflexivity.
Qed.

(** X11.  Both batch calls request their endpoint with "api-version=1.0"
    and the subscription key, followed by "language" only when a language
    that is not empty is given; [limit] and [typeahead] do not reach the
    request. *)
Theorem batch_request_url :
  forall (self : AzureMaps.self) (addresses : list string)
         (pairs : list (value * value)) (exactly_one : bool)
         (timeout : timeout_arg) (limit : option Z) (typeahead : bool)
         (language : option string),
    let query_string :=
      "api-version=1.0&subscription-key=" ++
      match language with
      | Some l =>
          if String.eqb l "" then quote_plus (api_key (AzureMaps.super self))
          else quote_plus (api_key (AzureMaps.super self))
               ++ "&language=" ++ quote_plus l
      | None => quote_plus (api_key (AzureMaps.super self))
      end in
    AzureMaps._batch_geocode addresses exactly_one timeout limit typeahead language self
    = _call_geocoder
        (AzureMaps.api_batch self ++ "?" ++ query_string)
        (fun r_json => AzureMaps._parse_batch_response r_json exactly_one false)
        timeout [("Content-Type", "application/json")]
        (Some (PDict [("batchItems",
                       PList (map (fun a => batch_query_item exactly_one (quote_plus a))
                                  addresses))]))
        self
    /\
    AzureMaps._batch_reverse (map (fun p => PList [fst p; snd p]) pairs)
      exactly_one timeout limit typeahead language self
    = _call_geocoder
        (AzureMaps.api_reverse_batch self ++ "?" ++ query_string)
        (fun r_json => AzureMaps._parse_batch_response r_json exactly_one true)
        timeout [("Content-Type", "application/json")]
        (Some (PDict [("batchItems",
                       PList (map (fun p => batch_query_item exactly_one
                                              (py_str (fst p) ++ "," ++ py_str (snd p)))
                                  pairs))]))
        self.
Proof.
  intros self addresses pairs exactly_one timeout limit typeahead language query_string.
  subst query_string. split.
  - unfold AzureMaps._batch_geocode, AzureMaps._batch_geocode_params,
      bindM, attr, retM, batch_query_item. cbv zeta.
    destruct language as [l |]; [destruct (String.eqb l "") eqn:Hl |];
      simpl; try rewrite Hl; simpl; destruct exactly_one; reflexivity.
  - unfold AzureMaps._batch_reverse, AzureMaps._batch_geocode_params,
      bindM, attr, retM, liftM. cbv zeta. rewrite reverse_items.
    destruct language as [l |]; [destruct (String.eqb l "") eqn:Hl |];
      simpl; try rewrite Hl; reflexivity.
Qed.

(** X12.  [_batch_reverse] raises [ValueError] at the first item that is
    a sequence of other than two elements; no request is made and the
    adapter is unchanged. *)
Theorem batch_reverse_bad_item :
  forall (self : AzureMaps.self) (pairs : list (value * value))
         (bad after : list value) (exactly_one : bool) (timeout : timeout_arg)
         (limit : option Z) (typeahead : bool) (language : option string),
    length bad <> 2 ->
    AzureMaps._batch_reverse
      (map (fun p => PList [fst p; snd p]) pairs ++ PList bad :: after)
      exactly_one timeout limit typeahead language self
    = (Raise ValueError, self).
Proof.
  intros self pairs bad after exactly_one timeout limit typeahead language Hbad.
  unfold AzureMaps._batch_reverse, AzureMaps._batch_geocode_params,
    bindM, attr, retM, liftM. cbv zeta.
  rewrite mapM_app, reverse_items. cbn [Py.bind mapM].
  destruct bad as [| a [| b [| c more]]]; try reflexivity.
  exfalso. apply Hbad. reflexivity.
Qed.

(** X13.  When the body the transport returns has a top-level "error",
    both batch calls raise [GeocoderServiceError] with the text of the
    error payload, although the request itself succeeded, and leave the
    adapter unchanged. *)
Theorem batch_call_service_error :
  forall (self : AzureMaps.self) (addresses : list string)
         (pairs : list (value * value)) (exactly_one : bool)
         (timeout : timeout_arg) (limit : option Z) (typeahead : bool)
         (language : option string) (top : list (string * value)) (err : value),
    (forall url headers data, transport url timeout headers data = Ok (PDict top)) ->
    dict_get "error" top = Some err ->
    AzureMaps._batch_geocode addresses exactly_one timeout limit typeahead language self
    = (Raise (GeocoderServiceError (py_str err)), self) /\
    AzureMaps._batch_reverse (map (fun p => PList [fst p; snd p]) pairs)
      exactly_one timeout limit typeahead language self
    = (Raise (GeocoderServiceError (py_str err)), self).
Proof.
  intros self addresses pairs exactly_one timeout limit typeahead language top err
         Htransport Herr.
  split.
  - apply (batch_geocode_service_error self addresses exactly_one timeout limit
             typeahead language top err Htransport Herr).
  - unfold AzureMaps._batch_reverse, AzureMaps._batch_geocode_params,
      _call_geocoder, bindM, attr, retM, liftM. cbv zeta.
    rewrite reverse_items, Htransport. cbn [Py.bind].
    rewrite (parse_batch_response_error top err exactly_one true Herr).
    reflexivity.
Qed.

End AzureMapsRequestsMore.

(* ===================================================================== *)
(** * Further properties of the MapTiler requests                         *)
(* ===================================================================== *)

Section StripFacts.
Variable c : ascii.

Lemma lstrip_all (pre s : string) :
  every_char (fun a => Ascii.eqb a c) pre = true ->
  lstrip c (pre ++ s) = lstrip c s.
Proof.
  induction pre as [| a rest IH]; simpl; intros H.
  - reflexivity.
  - apply andb_prop in H. destruct H as [Ha Hrest]. rewrite Ha. apply IH. exact Hrest.
Qed.

Lemma rstrip_all (post : string) :
  every_char (fun a => Ascii.eqb a c) post = true -> rstrip c post = EmptyString.
Proof.
  induction post as [| a rest IH]; simpl; intros H.
  - reflexivity.
  - apply andb_prop in H. destruct H as [Ha Hrest]. rewrite (IH Hrest), Ha. reflexivity.
Qed.

Lemma rstrip_app_all (s post : string) :
  every_char (fun a => Ascii.eqb a c) post = true ->
  rstrip c (s ++ post) = rstrip c s.
Proof.
  intros H. induction s as [| a rest IH]; simpl.
  - apply rstrip_all. exact H.
  - rewrite IH. reflexivity.
Qed.

Lemma strip_app_all (s post : string) :
  every_char (fun a => Ascii.eqb a c) post = true ->
  strip c (s ++ post) = strip c s.
Proof.
  intros H. unfold strip. induction s as [| a rest IH].
  - simpl. clear - H. induction post as [| a rest IH]; simpl in *.
    + reflexivity.
    + apply andb_prop in H. destruct H as [Ha Hrest]. rewrite Ha. apply IH. exact Hrest.
  - simpl. destruct (Ascii.eqb a c).
    + exact IH.
    + apply (rstrip_app_all (String a rest) post H).
Qed.

End StripFacts.

Section MapTilerRequestsMore.
Context {F : PyFloat} {P : PyStr} {G : Geocoder}.

(** X14.  Slashes around the domain do not matter: constructing the
    adapter with any run of "/" before and after the domain gives the
    adapter constructed with the bare domain. *)
Theorem maptiler_init_domain_slashes :
  forall (key : string) (scheme_arg : option string) (opts : options)
         (domain before after : string),
    every_char (fun a => Ascii.eqb a "/") before = true ->
    every_char (fun a => Ascii.eqb a "/") after = true ->
    MapTiler.__init__ key scheme_arg opts (before ++ domain ++ after)
    = MapTiler.__init__ key scheme_arg opts domain.
Proof.
  intros key scheme_arg opts domain before after Hbefore Hafter.
  assert (Hstrip : strip "/" (before ++ domain ++ after) = strip "/" domain).
  { unfold strip at 1. rewrite (lstrip_all "/" before _ Hbefore).
    apply (strip_app_all "/" domain after Hafter). }
  unfold MapTiler.__init__. cbv zeta. rewrite Hstrip. reflexivity.
Qed.

(** X15.  The percent-encoded address in the URL path holds no "?", "#",
    ";", "&" or space: the path ends at the first "?", and the ";" that
    joins the addresses of a list is never part of an address. *)
Theorem maptiler_path_encoded :
  forall (address : string),
    mem_char "?" (quote address) = false /\
    mem_char "#" (quote address) = false /\
    mem_char ";" (quote address) = false /\
    mem_char "&" (quote address) = false /\
    mem_char " " (quote address) = false.
Proof.
  intros address.
  pose proof (quote_from_bytes_quoted "/" address) as Hq.
  repeat split; apply (every_char_excludes _ _ _ Hq); reflexivity.
Qed.

(** The path segment [_geocode] derives from its query argument. *)
Lemma geocode_request (self : MapTiler.self) (query : query string string)
  (timeout : timeout_arg) (proximity : option point_arg)
  (language : MapTiler.language_arg) (bbox : option (list point_arg))
  (exactly_one : bool) (base : string) (bbox_s proximity_s : option string) :
  MapTiler.api self = base ++ MapTiler.api_path ->
  mem_char "%" base = false ->
  bbox_value bbox bbox_s ->
  proximity_value proximity proximity_s ->
  MapTiler._geocode query timeout proximity language bbox exactly_one self
  = _call_geocoder
      (endpoint base
         match query with
         | Listed qs => join ";" (map quote qs)
         | Scalar q => quote q
         end
         ((("key", MapTiler.api_key self) :: optional "bbox" bbox_s)
          ++ optional "language" (language_value language)
          ++ optional "proximity" proximity_s)%list)
      (fun json => MapTiler._parse_json json exactly_one)
      timeout [] None self.
Proof.
  intros Hapi Hfree Hbbox Hprox.
  unfold MapTiler._geocode, bindM, attr, liftM, endpoint. cbv zeta.
  assert (Hb : MapTiler.with_bbox bbox [("key", MapTiler.api_key self)]
               = Ok (("key", MapTiler.api_key self) :: optional "bbox" bbox_s)).
  { destruct Hbbox as [| | b bs s Hs]; simpl; try reflexivity.
    rewrite Hs. reflexivity. }
  rewrite Hb, with_language_value.
  assert (Hp : MapTiler.with_proximity proximity
                 ((("key", MapTiler.api_key self) :: optional "bbox" bbox_s)
                  ++ optional "language" (language_value language))%list
               = Ok ((("key", MapTiler.api_key self) :: optional "bbox" bbox_s)
                     ++ optional "language" (language_value language)
                     ++ optional "proximity" proximity_s)%list).
  { destruct Hprox as [| a Ha | a p Ha Hnew]; simpl.
    - rewrite app_nil_r. reflexivity.
    - rewrite Ha, app_nil_r. reflexivity.
    - rewrite Ha, Hnew. simpl.
      destruct bbox_s; destruct (language_value language); reflexivity. }
  rewrite Hp, Hapi, (format_api_path base _ Hfree). reflexivity.
Qed.

(** X16.  For a list of addresses [_geocode] requests one URL whose path
    holds the percent-encoded addresses joined by ";", with the same
    parameters as for a single address; a list of one address requests
    what the address alone requests. *)
Theorem maptiler_geocode_list_url :
  forall (self : MapTiler.self) (addresses : list string) (timeout : timeout_arg)
         (proximity : option point_arg) (language : MapTiler.language_arg)
         (bbox : option (list point_arg)) (exactly_one : bool)
         (base : string) (bbox_s proximity_s : option string),
    MapTiler.api self = base ++ MapTiler.api_path ->
    mem_char "%" base = false ->
    bbox_value bbox bbox_s ->
    proximity_value proximity proximity_s ->
    MapTiler._geocode (Listed addresses) timeout proximity language bbox exactly_one self
    = _call_geocoder
        (endpoint base (join ";" (map quote addresses))
           ((("key", MapTiler.api_key self) :: optional "bbox" bbox_s)
            ++ optional "language" (language_value language)
            ++ optional "proximity" proximity_s)%list)
        (fun json => MapTiler._parse_json json exactly_one)
        timeout [] None self
    /\
    (forall address,
        MapTiler._geocode (Listed [address]) timeout proximity language bbox
          exactly_one self
        = MapTiler._geocode (Scalar address) timeout proximity language bbox
            exactly_one self).
Proof.
  intros self addresses timeout proximity language bbox exactly_one base
         bbox_s proximity_s Hapi Hfree Hbbox Hprox.
  split.
  - apply (geocode_request self (Listed addresses) timeout proximity language bbox
             exactly_one base bbox_s proximity_s Hapi Hfree Hbbox Hprox).
  - intros address. reflexivity.
Qed.

(** X17.  For a list of coordinates [_reverse] requests one URL whose
    path holds the coerced "lon,lat" strings joined by ";" as they are:
    unlike the single coordinate, they are not percent-encoded. *)
Theorem maptiler_reverse_list_url :
  forall (self : MapTiler.self) (coordinates : list point_arg) (timeout : timeout_arg)
         (language : MapTiler.language_arg) (exactly_one : bool)
         (base : string) (parts : list string),
    MapTiler.api self = base ++ MapTiler.api_path ->
    mem_char "%" base = false ->
    mapM (fun q => _coerce_point_to_string q "%(lon)s,%(lat)s") coordinates = Ok parts ->
    MapTiler._reverse (Listed coordinates) timeout language exactly_one self
    = _call_geocoder
        (endpoint base (join ";" parts)
           (("key", MapTiler.api_key self)
            :: optional "language" (language_value language)))
        (fun json => MapTiler._parse_json json exactly_one)
        timeout [] None self.
Proof.
  intros self coordinates timeout language exactly_one base parts Hapi Hfree Hparts.
  unfold MapTiler._reverse, bindM, attr, liftM, endpoint. cbv zeta.
  rewrite Hparts. cbn [Py.bind].
  rewrite Hapi, (format_api_path base _ Hfree).
  pose proof (with_language_value language (MapTiler.api_key self) None) as Hl.
  simpl in Hl. rewrite Hl. reflexivity.
Qed.

(** X18.  When the base class fails to format the bounding box, or to
    build the proximity point after the bounding box went through,
    [_geocode] raises that exception; no request is made and the adapter
    is unchanged. *)
Theorem maptiler_geocode_helper_failure :
  forall (self : MapTiler.self) (query : query string string) (timeout : timeout_arg)
         (proximity : option point_arg) (language : MapTiler.language_arg)
         (bbox : option (list point_arg)) (exactly_one : bool) (e : exn),
    (exists b bs,
        bbox = Some (b :: bs) /\
        _format_bounding_box (b :: bs) "%(lon1)s,%(lat1)s,%(lon2)s,%(lat2)s" = Raise e)
    \/
    (exists bbox_s a,
        bbox_value bbox bbox_s /\
        proximity = Some a /\ point_truthy a = true /\ Point_new a = Raise e) ->
    MapTiler._geocode query timeout proximity language bbox exactly_one self
    = (Raise e, self).
Proof.
  intros self query timeout proximity language bbox exactly_one e
         [[b [bs [-> Hfmt]]] | [bbox_s [a [Hbbox [-> [Ha Hnew]]]]]];
    unfold MapTiler._geocode, bindM, attr, liftM; cbv zeta.
  - simpl. rewrite Hfmt. reflexivity.
  - assert (Hb : MapTiler.with_bbox bbox [("key", MapTiler.api_key self)]
                 = Ok (("key", MapTiler.api_key self) :: optional "bbox" bbox_s)).
    { destruct Hbbox as [| | b bs s Hs]; simpl; try reflexivity.
      rewrite Hs. reflexivity. }
    rewrite Hb. simpl. rewrite Ha, Hnew. reflexivity.
Qed.

(** X19.  When the base class fails to coerce the coordinate (for a list:
    one of the coordinates), [_reverse] raises that exception; no request
    is made and the adapter is unchanged. *)
Theorem maptiler_reverse_coerce_failure :
  forall (self : MapTiler.self) (query : query point_arg point_arg)
         (timeout : timeout_arg) (language : MapTiler.language_arg)
         (exactly_one : bool) (e : exn),
    match query with
    | Scalar q => _coerce_point_to_string q "%(lon)s,%(lat)s" = Raise e
    | Listed qs =>
        mapM (fun q => _coerce_point_to_string q "%(lon)s,%(lat)s") qs = Raise e
    end ->
    MapTiler._reverse query timeout language exactly_one self = (Raise e, self).
Proof.
  intros self query timeout language exactly_one e Hfail.
  unfold MapTiler._reverse, bindM, attr, liftM. cbv zeta.
  destruct query as [q | qs]; rewrite Hfail; reflexivity.
Qed.

End MapTilerRequestsMore.

(* ===================================================================== *)
(** * The further properties at the sample inputs                         *)
(* ===================================================================== *)

Section MoreInstances.
#[local] Existing Instance Sample.sample_float.
#[local] Existing Instance Sample.sample_str.
#[local] Existing Instance Sample.sample_geocoder.
#[local] Existing Instance Sample.sample_tomtom.

Lemma parse_batch_response_no_items_witness :
  dict_mem "error" MoreSamples.summary_only = false /\
  (dict_get "batchItems" MoreSamples.summary_only = None \/
   dict_get "batchItems" MoreSamples.summary_only = Some (PList [])) /\
  AzureMaps._parse_batch_response (PDict MoreSamples.summary_only) false true = Ok [].
Proof.
  assert (H : dict_get "batchItems" MoreSamples.summary_only = None \/
              dict_get "batchItems" MoreSamples.summary_only = Some (PList [])).
  { left. reflexivity. }
  split; [reflexivity |]. split; [exact H |].
  exact (parse_batch_response_no_items MoreSamples.summary_only false true eq_refl H).
Defined.

Lemma parse_batch_response_first_failure_witness :
  Forall (fun item => exists r, AzureMaps.parse_item "results" true item = Ok r)
         [PDict Sample.found_item] /\
  AzureMaps.parse_item "results" true (PDict MoreSamples.failed_item) = Raise KeyError /\
  AzureMaps._parse_batch_response (PDict MoreSamples.broken_response) true false
  = Raise KeyError.
Proof.
  assert (H : Forall (fun item =>
                        exists r, AzureMaps.parse_item "results" true item = Ok r)
                     [PDict Sample.found_item]).
  { constructor; [| constructor]. eexists. reflexivity. }
  split; [exact H |]. split; [reflexivity |].
  exact (parse_batch_response_first_failure MoreSamples.broken_response
           [PDict Sample.found_item] [PDict Sample.empty_item]
           (PDict MoreSamples.failed_item) true false KeyError
           eq_refl eq_refl H eq_refl).
Defined.


Lemma parse_batch_response_not_a_mapping_witness :
  is_dict (PList [PDict Sample.found_item]) = false /\
  (AzureMaps._parse_batch_response (PList [PDict Sample.found_item]) true false
   = Raise TypeError \/
   AzureMaps._parse_batch_response (PList [PDict Sample.found_item]) true false
   = Raise AttributeError).
Proof.
  split; [reflexivity |].
  exact (parse_batch_response_not_a_mapping (PList [PDict Sample.found_item])
           true false eq_refl).
Defined.

Lemma parse_batch_response_shape_witness :
  AzureMaps._parse_batch_response (PDict Sample.batch_response) false false
  = Ok [Many [mkLocation (PStr "1 Microsoft Way, Redmond")
                (PFloat "47.64", PFloat "-122.13") (PDict Sample.redmond);
              mkLocation PNone
                (PFloat "47.64", PFloat "-122.13") (PDict Sample.by_string)];
        Many []] /\
  forallb (azure_shape false)
    [Many [mkLocation (PStr "1 Microsoft Way, Redmond")
             (PFloat "47.64", PFloat "-122.13") (PDict Sample.redmond);
           mkLocation PNone
             (PFloat "47.64", PFloat "-122.13") (PDict Sample.by_string)];
     Many []] = true.
Proof.
  split; [reflexivity |].
  exact (parse_batch_response_shape (PDict Sample.batch_response) false false _ eq_refl).
Defined.

Lemma parse_feature_single_of_multi_witness :
  MapTiler._parse_feature (PDict Sample.collection) false
  = Ok (Many [mkLocation (PStr "New York, NY")
                (PFloat "40.7128", PFloat "-74.0060") Sample.new_york;
              mkLocation (PStr "Albany, NY")
                (PFloat "42.6526", PFloat "-73.7562") Sample.albany]) /\
  MapTiler._parse_feature (PDict Sample.collection) true
  = Ok (One (mkLocation (PStr "New York, NY")
               (PFloat "40.7128", PFloat "-74.0060") Sample.new_york)).
Proof.
  split; [reflexivity |].
  exact (parse_feature_single_of_multi (PDict Sample.collection) _ eq_refl).
Defined.

Lemma parse_json_shape_witness :
  MapTiler._parse_json
    (PList [PDict Sample.collection; PDict Sample.empty_collection]) true
  = Ok (Batch [One (mkLocation (PStr "New York, NY")
                      (PFloat "40.7128", PFloat "-74.0060") Sample.new_york);
               NoResult]) /\
  is_dict (PList [PDict Sample.collection; PDict Sample.empty_collection]) = false /\
  forallb (maptiler_shape true)
    [One (mkLocation (PStr "New York, NY")
            (PFloat "40.7128", PFloat "-74.0060") Sample.new_york);
     NoResult] = true.
Proof.
  split; [reflexivity |].
  exact (parse_json_shape
           (PList [PDict Sample.collection; PDict Sample.empty_collection]) true
           _ eq_refl).
Defined.

Lemma parse_feature_defect_witness :
  feature_defect MoreSamples.half_centered IndexError /\
  MapTiler.parse_feature (PDict MoreSamples.half_centered) = Raise IndexError.
Proof.
  assert (H : feature_defect MoreSamples.half_centered IndexError).
  { eapply feature_short_center; [reflexivity | reflexivity | simpl; lia]. }
  split; [exact H |].
  exact (proj1 (parse_feature_defect MoreSamples.half_centered IndexError H)).
Defined.

Lemma batch_reverse_bad_item_witness :
  length [PFloat "47.64"] <> 2 /\
  AzureMaps._batch_reverse
    (map (fun p => PList [fst p; snd p]) [(PFloat "40.7128", PFloat "-74.0060")]
     ++ PList [PFloat "47.64"] :: [])
    true DEFAULT_SENTINEL None false None MoreSamples.azure
  = (Raise ValueError, MoreSamples.azure).
Proof.
  assert (H : length [@PFloat Sample.sample_float "47.64"] <> 2).
  { simpl. lia. }
  split; [exact H |].
  exact (batch_reverse_bad_item MoreSamples.azure
           [(PFloat "40.7128", PFloat "-74.0060")] [PFloat "47.64"] []
           true DEFAULT_SENTINEL None false None H).
Defined.

Lemma maptiler_init_domain_slashes_witness :
  every_char (fun a => Ascii.eqb a "/") "/" = true /\
  every_char (fun a => Ascii.eqb a "/") "//" = true /\
  MapTiler.__init__ "KEY" None tt ("/" ++ "api.maptiler.com" ++ "//")
  = MapTiler.__init__ "KEY" None tt "api.maptiler.com".
Proof.
  split; [reflexivity |]. split; [reflexivity |].
  exact (maptiler_init_domain_slashes "KEY" None tt "api.maptiler.com" "/" "//"
           eq_refl eq_refl).
Defined.

Lemma maptiler_geocode_list_url_witness :
  MapTiler.api Sample.maptiler = "https://api.maptiler.com" ++ MapTiler.api_path /\
  mem_char "%" "https://api.maptiler.com" = false /\
  bbox_value None None /\
  proximity_value None None /\
  MapTiler._geocode (Listed ["Paris"; "Rome; IT"]) DEFAULT_SENTINEL None
    (MapTiler.LangStr "fr") None false Sample.maptiler
  = _call_geocoder
      "https://api.maptiler.com/geocoding/Paris;Rome%3B%20IT.json?key=KEY&language=fr"
      (fun json => MapTiler._parse_json json false)
      DEFAULT_SENTINEL [] None Sample.maptiler.
Proof.
  split; [reflexivity |]. split; [reflexivity |].
  split; [exact bbox_absent |]. split; [exact proximity_absent |].
  exact (proj1 (maptiler_geocode_list_url Sample.maptiler ["Paris"; "Rome; IT"]
                  DEFAULT_SENTINEL None (MapTiler.LangStr "fr") None false
                  "https://api.maptiler.com" None None
                  eq_refl eq_refl bbox_absent proximity_absent)).
Defined.

Lemma maptiler_reverse_list_url_witness :
  MapTiler.api Sample.maptiler = "https://api.maptiler.com" ++ MapTiler.api_path /\
  mem_char "%" "https://api.maptiler.com" = false /\
  mapM (fun q => _coerce_point_to_string q "%(lon)s,%(lat)s")
       [PointStr "40.7128,-74.0060"; PointStr "42.6526,-73.7562"]
  = Ok ["-74.0060,40.7128"; "-73.7562,42.6526"] /\
  MapTiler._reverse (Listed [PointStr "40.7128,-74.0060"; PointStr "42.6526,-73.7562"])
    DEFAULT_SENTINEL MapTiler.LangNone true Sample.maptiler
  = _call_geocoder
      "https://api.maptiler.com/geocoding/-74.0060,40.7128;-73.7562,42.6526.json?key=KEY"
      (fun json => MapTiler._parse_json json true)
      DEFAULT_SENTINEL [] None Sample.maptiler.
Proof.
  split; [reflexivity |]. split; [reflexivity |]. split; [reflexivity |].
  exact (maptiler_reverse_list_url Sample.maptiler
           [PointStr "40.7128,-74.0060"; PointStr "42.6526,-73.7562"]
           DEFAULT_SENTINEL MapTiler.LangNone true
           "https://api.maptiler.com" ["-74.0060,40.7128"; "-73.7562,42.6526"]
           eq_refl eq_refl eq_refl).
Defined.

Lemma maptiler_geocode_helper_failure_witness :
  _format_bounding_box [PointStr "1,2"] "%(lon1)s,%(lat1)s,%(lon2)s,%(lat2)s"
  = Raise ValueError /\
  MapTiler._geocode (Scalar "Paris") DEFAULT_SENTINEL None MapTiler.LangNone
    (Some [PointStr "1,2"]) true Sample.maptiler
  = (Raise ValueError, Sample.maptiler).
Proof.
  split; [reflexivity |].
  apply (maptiler_geocode_helper_failure Sample.maptiler (Scalar "Paris")
           DEFAULT_SENTINEL None MapTiler.LangNone (Some [PointStr "1,2"]) true
           ValueError).
  left. exists (PointStr "1,2"), []. split; reflexivity.
Defined.

Lemma maptiler_reverse_coerce_failure_witness :
  _coerce_point_to_string (PointStr "nowhere") "%(lon)s,%(lat)s" = Raise ValueError /\
  MapTiler._reverse (Scalar (PointStr "nowhere")) DEFAULT_SENTINEL MapTiler.LangNone
    true Sample.maptiler
  = (Raise ValueError, Sample.maptiler).
Proof.
  split; [reflexivity |].
  exact (maptiler_reverse_coerce_failure Sample.maptiler (Scalar (PointStr "nowhere"))
           DEFAULT_SENTINEL MapTiler.LangNone true ValueError eq_refl).
Defined.

End MoreInstances.

Section ErrorInstances.
#[local] Existing Instance Sample.sample_float.
#[local] Existing Instance Sample.sample_str.
#[local] Existing Instance MoreSamples.error_geocoder.
#[local] Existing Instance MoreSamples.error_tomtom.

Lemma batch_call_service_error_witness :
  (forall url headers data,
      transport url DEFAULT_SENTINEL headers data = Ok (PDict Sample.error_response)) /\
  dict_get "error" Sample.error_response
  = Some (PDict [("code", PStr "400 BadRequest")]) /\
  AzureMaps._batch_geocode ["1 Microsoft Way, Redmond"] true DEFAULT_SENTINEL
    None false None MoreSamples.azure_behind_error
  = (Raise (GeocoderServiceError "{...}"), MoreSamples.azure_behind_error).
Proof.
  split; [intros url headers data; reflexivity |]. split; [reflexivity |].
  exact (proj1 (batch_call_service_error MoreSamples.azure_behind_error
                  ["1 Microsoft Way, Redmond"] [] true DEFAULT_SENTINEL None false None
                  Sample.error_response (PDict [("code", PStr "400 BadRequest")])
                  (fun url headers data => eq_refl) eq_refl)).
Defined.

End ErrorInstances.
